(** * Gemini chatbot (app.py): session re-initialisation and streaming exchange

    A shallow embedding of the Streamlit script [app.py].  One execution of
    the script (one Streamlit rerun) is a computation over
    [st.session_state]; widget values and the answers of the remote Gemini
    client are the inputs of the run, the calls to the display and to the
    client are logged in order.

    The first part is the model of the script, the second the notions the
    statements are written with, the third the properties: of the
    streaming loop and the message exchange, then of the session manager
    and of the states reachable by runs. *)

From Stdlib Require Import String Ascii List Bool ZArith Lia.
Import ListNotations.
Local Open Scope string_scope.
Local Open Scope list_scope.

(** * The model *)

(** ** Python values *)

(** Truthiness of a [str]: the empty string is falsy. *)
Definition truthy (s : string) : bool := negb (s =? "").

(** Python strings are modelled by their UTF-8 encoding.  [ch.isspace()]
    for one character [ch], given by its bytes: the characters that
    [str.strip()] removes are the ASCII ones (U+0009 to U+000D, U+001C to
    U+0020), U+0085 and U+00A0 (two bytes), and U+1680, U+2000 to U+200A,
    U+2028, U+2029, U+202F, U+205F and U+3000 (three bytes). *)
Definition isspace (ch : string) : bool :=
  match ch with
  | String a EmptyString =>
      let x := nat_of_ascii a in
      (((9 <=? x) && (x <=? 13)) || ((28 <=? x) && (x <=? 32)))%nat
  | String a (String b EmptyString) =>
      let x := nat_of_ascii a in
      let y := nat_of_ascii b in
      ((x =? 194) && ((y =? 133) || (y =? 160)))%nat
  | String a (String b (String c EmptyString)) =>
      let x := nat_of_ascii a in
      let y := nat_of_ascii b in
      let z := nat_of_ascii c in
      (((x =? 225) && (y =? 154) && (z =? 128))
       || ((x =? 226) && (y =? 128)
           && (((128 <=? z) && (z <=? 138)) || (z =? 168) || (z =? 169) || (z =? 175)))
       || ((x =? 226) && (y =? 129) && (z =? 159))
       || ((x =? 227) && (y =? 128) && (z =? 128)))%nat
  | _ => false
  end.

(** [s.lstrip()]: the leading whitespace characters, of one, two or three
    bytes, are removed. *)
Fixpoint lstrip (s : string) : string :=
  match s with
  | String a rest =>
      if isspace (String a EmptyString) then lstrip rest else
      match rest with
      | String b rest2 =>
          if isspace (String a (String b EmptyString)) then lstrip rest2 else
          match rest2 with
          | String c rest3 =>
              if isspace (String a (String b (String c EmptyString)))
              then lstrip rest3 else s
          | EmptyString => s
          end
      | EmptyString => s
      end
  | EmptyString => EmptyString
  end.

(** [s.rstrip()]: going from the right, what is left once the rest is
    stripped is dropped when it is one whitespace character. *)
Fixpoint rstrip (s : string) : string :=
  match s with
  | String c rest =>
      let kept := String c (rstrip rest) in
      if isspace kept then EmptyString else kept
  | EmptyString => EmptyString
  end.

Definition strip (s : string) : string := rstrip (lstrip s).

(** [needle in haystack] for Python strings. *)
Fixpoint contains (needle haystack : string) : bool :=
  prefix needle haystack ||
  match haystack with
  | String _ rest => contains needle rest
  | EmptyString => false
  end.

(** ** Data model *)

(** An entry of [st.session_state.messages]: the dict
    [{"role": ..., "content": ...}]. *)
Record message := { role : string; content : string }.

(** The keys of the [available_models] dict, i.e. the options of the
    model select box. *)
Inductive model_option := Gemini15Flash | Gemini10Pro | Gemini15Pro.

Definition display_name (m : model_option) : string :=
  match m with
  | Gemini15Flash => "Gemini 1.5 Flash (Latest)"
  | Gemini10Pro => "Gemini 1.0 Pro"
  | Gemini15Pro => "Gemini 1.5 Pro (Latest)"
  end.

Definition available_models (m : model_option) : string :=
  match m with
  | Gemini15Flash => "gemini-1.5-flash-latest"
  | Gemini10Pro => "gemini-1.0-pro"
  | Gemini15Pro => "gemini-1.5-pro-latest"
  end.

(** The client library [google.generativeai], as far as the script sees it. *)
Module genai.

Record generation_config := { temperature : Z; max_output_tokens : Z }.

Record safety_setting := { category : string; threshold : string }.

(** What [genai.GenerativeModel(...).start_chat(history=[])] was built
    from, after [genai.configure(api_key=...)]; [handle] is the identity
    of the object the client returned. *)
Record ChatSession := {
  handle : nat;
  api_key : string;
  model_name : string;
  safety_settings : list safety_setting;
  generation : generation_config;
  system_instruction : option string
}.

(** Exception classes the [except] clauses of the script name.  An
    exception of class [Exception] stands for any instance of Python's
    [Exception] that is neither of the two named ones.  What is not an
    [Exception] (KeyboardInterrupt, SystemExit) is not an error of the
    client and is left out. *)
Inductive exn_class := BlockedPromptException | StopCandidateException | Exception.

(** A raised exception: its class and [str(e)]. *)
Record exn := { exn_type : exn_class; str : string }.

Definition exn_class_eqb (a b : exn_class) : bool :=
  match a, b with
  | BlockedPromptException, BlockedPromptException => true
  | StopCandidateException, StopCandidateException => true
  | Exception, Exception => true
  | _, _ => false
  end.

(** [isinstance(e, c)]: both named classes derive from [Exception]. *)
Definition isinstance (e : exn) (c : exn_class) : bool :=
  match c with
  | Exception => true
  | _ => exn_class_eqb (exn_type e) c
  end.

(** An item of a streamed response: [hasattr(chunk, 'text')] holds and
    [chunk.text] is [text], or the chunk has no such attribute and
    formats as [repr]. *)
Inductive chunk := TextChunk (text : string) | OtherChunk (repr : string).

(** The lazy response of [send_message(..., stream=True)] as the [for]
    loop meets it: the next chunk, normal exhaustion, or an exception
    raised at this point (by the call itself when it is the first item,
    by the iterator or by the [text] attribute access later). *)
Inductive stream :=
| Exhausted
| Yield (c : chunk) (rest : stream)
| Raise (e : exn).

Inductive start_chat_result :=
| Started (h : nat)
| StartRaises (e : exn).

End genai.

(** The answers of the remote service during one run of the script: to the
    one session creation and to the one [send_message] it can make. *)
Record remote := {
  start_chat_response : genai.start_chat_result;
  send_message_response : genai.stream
}.

(** [st.session_state]: a key is absent ([None]) until first assigned.
    [chat_session] may be present and hold Python's [None]. *)
Record session_state := {
  api_key : option string;
  model_name : option string;
  system_prompt : option string;
  messages : option (list message);
  chat_session : option (option genai.ChatSession)
}.

Definition empty_session_state : session_state :=
  {| api_key := None; model_name := None; system_prompt := None;
     messages := None; chat_session := None |}.

(** Widget values and environment of one run of the script. *)
Record widgets := {
  env_api_key : option string;          (* os.getenv("GOOGLE_API_KEY") *)
  api_key_input : string;               (* st.text_input *)
  selected_model : model_option;        (* st.selectbox *)
  system_prompt_input : string;         (* st.text_area, local [system_prompt] *)
  temperature : Z;                      (* st.slider, in hundredths *)
  max_tokens : Z;                       (* st.number_input *)
  clear_chat_history : bool;            (* st.button("Clear Chat History") *)
  user_prompt : option string           (* st.chat_input("Ask Gemini...") *)
}.

Definition MODEL_NAME (w : widgets) : string := available_models (selected_model w).

(** What a run does to the outside, in program order. *)
Inductive event :=
| st_error (body : string)
| st_warning (body : string)
| st_toast (body icon : string)
| st_chat_message (name : string)
| st_markdown (body : string)
| st_empty
| placeholder_markdown (body : string)
| st_rerun
| call_start_chat (key model : string) (instruction : option string)
                  (safety : list genai.safety_setting) (gen : genai.generation_config)
| call_send_message (session : genai.ChatSession) (text : string).

(** ** The script monad: state, log, exceptions and [st.rerun()] *)

Inductive outcome (A : Type) :=
| Returned (a : A)
| Raised (e : genai.exn)
| Rerun.
Arguments Returned {A} a.
Arguments Raised {A} e.
Arguments Rerun {A}.

Definition M (A : Type) : Type :=
  session_state -> outcome A * session_state * list event.

Definition ret {A} (a : A) : M A := fun s => (Returned a, s, []).

Definition bind {A B} (m : M A) (k : A -> M B) : M B :=
  fun s =>
    match m s with
    | (Returned a, s1, l1) =>
        match k a s1 with (o, s2, l2) => (o, s2, l1 ++ l2) end
    | (Raised e, s1, l1) => (Raised e, s1, l1)
    | (Rerun, s1, l1) => (Rerun, s1, l1)
    end.

Declare Scope script_scope.
Delimit Scope script_scope with script.
Notation "x <- m ;; k" := (bind m (fun x => k))
  (at level 61, m at next level, right associativity) : script_scope.
Notation "m ;; k" := (bind m (fun _ => k))
  (at level 61, right associativity) : script_scope.
Local Open Scope script_scope.

Definition emit (e : event) : M unit := fun s => (Returned tt, s, [e]).
Definition raise {A} (e : genai.exn) : M A := fun s => (Raised e, s, []).
Definition rerun {A} : M A := fun s => (Rerun, s, [st_rerun]).

(** Reading an absent key of [st.session_state] raises [AttributeError]. *)
Definition AttributeError (key : string) : genai.exn :=
  {| genai.exn_type := genai.Exception;
     genai.str := "st.session_state has no attribute " ++ key |}.

Definition read {A} (key : string) (field : session_state -> option A) : M A :=
  fun s =>
    match field s with
    | Some v => (Returned v, s, [])
    | None => (Raised (AttributeError key), s, [])
    end.

Definition has {A} (field : session_state -> option A) : M bool :=
  fun s => (Returned (match field s with Some _ => true | None => false end), s, []).

Definition set_api_key (v : string) : M unit :=
  fun s => (Returned tt,
            {| api_key := Some v; model_name := model_name s;
               system_prompt := system_prompt s; messages := messages s;
               chat_session := chat_session s |}, []).

Definition set_model_name (v : string) : M unit :=
  fun s => (Returned tt,
            {| api_key := api_key s; model_name := Some v;
               system_prompt := system_prompt s; messages := messages s;
               chat_session := chat_session s |}, []).

Definition set_system_prompt (v : string) : M unit :=
  fun s => (Returned tt,
            {| api_key := api_key s; model_name := model_name s;
               system_prompt := Some v; messages := messages s;
               chat_session := chat_session s |}, []).

Definition set_messages (v : list message) : M unit :=
  fun s => (Returned tt,
            {| api_key := api_key s; model_name := model_name s;
               system_prompt := system_prompt s; messages := Some v;
               chat_session := chat_session s |}, []).

Definition set_chat_session (v : option genai.ChatSession) : M unit :=
  fun s => (Returned tt,
            {| api_key := api_key s; model_name := model_name s;
               system_prompt := system_prompt s; messages := messages s;
               chat_session := Some v |}, []).

(** [try: body except c1 as e: h1 ... except cn as e: hn]: the first clause
    whose class the exception is an instance of handles it; with none, it
    propagates. *)
Fixpoint select_clause {A} (clauses : list (genai.exn_class * (genai.exn -> M A)))
    (e : genai.exn) : option (M A) :=
  match clauses with
  | [] => None
  | (c, h) :: more =>
      if genai.isinstance e c then Some (h e) else select_clause more e
  end.

Definition try_except {A} (body : M A)
    (clauses : list (genai.exn_class * (genai.exn -> M A))) : M A :=
  fun s =>
    match body s with
    | (Raised e, s1, l1) =>
        match select_clause clauses e with
        | Some h => match h s1 with (o, s2, l2) => (o, s2, l1 ++ l2) end
        | None => (Raised e, s1, l1)
        end
    | other => other
    end.

(** Short-circuit [or] of conditions that read the state. *)
Definition orM (a b : M bool) : M bool :=
  x <- a ;; if x then ret true else b.

(** ** The script *)

(** [initialize_chat_session] (lines 22-36).  Configuring the client,
    building the model and starting the chat are one remote answer: the
    chat object, or an exception, which is reported and turned into
    Python's [None]. *)
Definition initialize_chat_session (r : remote) (api_key model_name : string)
    (system_instruction : option string)
    (safety_settings : list genai.safety_setting)
    (generation_config : genai.generation_config)
  : M (option genai.ChatSession) :=
  let instruction :=
    match system_instruction with
    | Some text => if truthy text then Some text else None
    | None => None
    end in
  try_except
    (emit (call_start_chat api_key model_name instruction
             safety_settings generation_config) ;;
     match start_chat_response r with
     | genai.Started h =>
         ret (Some {| genai.handle := h;
                      genai.api_key := api_key;
                      genai.model_name := model_name;
                      genai.safety_settings := safety_settings;
                      genai.generation := generation_config;
                      genai.system_instruction := instruction |})
     | genai.StartRaises e => raise e
     end)
    [(genai.Exception,
      fun e => emit (st_error ("Error initializing Gemini model: " ++ genai.str e)) ;;
               ret None)].

(** The "Clear Chat History" button (lines 84-87). *)
Definition clear_chat_button (w : widgets) : M unit :=
  if clear_chat_history w then
    set_messages [] ;;
    set_chat_session None ;;
    rerun
  else ret tt.

(** Session state initialisation (lines 92-103). *)
Definition session_state_initialization (w : widgets) : M unit :=
  (present <- has api_key ;;
   if present then ret tt else set_api_key (api_key_input w)) ;;
  (present <- has model_name ;;
   if present then ret tt else set_model_name (MODEL_NAME w)) ;;
  (present <- has system_prompt ;;
   if present then ret tt else set_system_prompt (system_prompt_input w)) ;;
  (present <- has messages ;;
   if present then ret tt else set_messages []).

(** The condition of lines 107-110. *)
Definition settings_changed (w : widgets) : M bool :=
  orM (present <- has chat_session ;; ret (negb present))
 (orM (k <- read "api_key" api_key ;; ret (negb (k =? api_key_input w)))
 (orM (m <- read "model_name" model_name ;; ret (negb (m =? MODEL_NAME w)))
      (p <- read "system_prompt" system_prompt ;;
       ret (negb (p =? system_prompt_input w))))).

Definition safety_settings : list genai.safety_setting :=
  [ {| genai.category := "HARM_CATEGORY_HARASSMENT";
       genai.threshold := "BLOCK_MEDIUM_AND_ABOVE" |};
    {| genai.category := "HARM_CATEGORY_HATE_SPEECH";
       genai.threshold := "BLOCK_MEDIUM_AND_ABOVE" |};
    {| genai.category := "HARM_CATEGORY_SEXUALLY_EXPLICIT";
       genai.threshold := "BLOCK_MEDIUM_AND_ABOVE" |};
    {| genai.category := "HARM_CATEGORY_DANGEROUS_CONTENT";
       genai.threshold := "BLOCK_MEDIUM_AND_ABOVE" |} ].

(** The body of the re-initialisation block (lines 112-144).  A chat
    object is truthy, [None] is falsy. *)
Definition reinitialize (w : widgets) (r : remote) : M unit :=
  set_api_key (api_key_input w) ;;
  set_model_name (MODEL_NAME w) ;;
  set_system_prompt (system_prompt_input w) ;;
  key <- read "api_key" api_key ;;
  if truthy key then
    let generation_config :=
      {| genai.temperature := temperature w;
         genai.max_output_tokens := max_tokens w |} in
    k <- read "api_key" api_key ;;
    m <- read "model_name" model_name ;;
    p <- read "system_prompt" system_prompt ;;
    p' <- read "system_prompt" system_prompt ;;
    chat <- initialize_chat_session r k m
              (if truthy (strip p') then Some p else None)
              safety_settings generation_config ;;
    set_chat_session chat ;;
    current <- read "chat_session" chat_session ;;
    match current with
    | Some _ =>
        set_messages [] ;;
        emit (st_toast ("Chat session initialized with "
                        ++ display_name (selected_model w) ++ "!") "✅")
    | None =>
        emit (st_error "Failed to initialize chat. Please check API key and model.")
    end
  else
    set_chat_session None ;;
    match env_api_key w with
    | Some e => if truthy e then ret tt else
        emit (st_warning "Please enter your Gemini API Key in the sidebar to start chatting.")
    | None =>
        emit (st_warning "Please enter your Gemini API Key in the sidebar to start chatting.")
    end.

(** (Re-)initialisation of [chat_session] (lines 105-144). *)
Definition chat_session_initialization (w : widgets) (r : remote) : M unit :=
  changed <- settings_changed w ;;
  if changed then reinitialize w r else ret tt.

(** Display of the chat history (lines 148-150). *)
Fixpoint display_messages (l : list message) : M unit :=
  match l with
  | [] => ret tt
  | message :: rest =>
      emit (st_chat_message (role message)) ;;
      emit (st_markdown (content message)) ;;
      display_messages rest
  end.

Definition display_chat_history : M unit :=
  l <- read "messages" messages ;; display_messages l.

(** [st.session_state.messages.append(m)]. *)
Definition messages_append (m : message) : M unit :=
  l <- read "messages" messages ;; set_messages (l ++ [m]).

(** The [for chunk in response_stream] loop (lines 173-183), from the
    current value of [full_response_content].  It returns that variable
    and what it left in the iterator. *)
Fixpoint for_chunk_in (response_stream : genai.stream)
    (full_response_content : string) : M (string * genai.stream) :=
  match response_stream with
  | genai.Exhausted => ret (full_response_content, genai.Exhausted)
  | genai.Raise e => raise e
  | genai.Yield (genai.TextChunk text) rest =>
      let full_response_content := (full_response_content ++ text)%string in
      emit (placeholder_markdown (full_response_content ++ "▌")) ;;
      for_chunk_in rest full_response_content
  | genai.Yield (genai.OtherChunk repr) rest =>
      emit (st_warning ("Received an unexpected chunk: " ++ repr)) ;;
      ret (full_response_content, rest)
  end.

(** The body of the [try] (lines 166-188). *)
Definition get_response (r : remote) (user_prompt : string) : M unit :=
  emit (st_chat_message "assistant") ;;
  emit st_empty ;;
  current <- read "chat_session" chat_session ;;
  match current with
  | None => raise {| genai.exn_type := genai.Exception;
                     genai.str := "'NoneType' object has no attribute 'send_message'" |}
  | Some session =>
      emit (call_send_message session user_prompt) ;;
      result <- for_chunk_in (send_message_response r) "" ;;
      let full_response_content := fst result in
      emit (placeholder_markdown full_response_content) ;;
      messages_append {| role := "assistant"; content := full_response_content |}
  end.

(** The [except] clauses (lines 190-198). *)
Definition on_blocked_prompt (e : genai.exn) : M unit :=
  emit (st_error ("⚠️ Your input was blocked by the safety filters: " ++ genai.str e)) ;;
  messages_append
    {| role := "assistant";
       content := "I'm sorry, I can't respond to that due to safety guidelines. (Blocked Prompt: "
                  ++ genai.str e ++ ")" |}.

Definition on_stop_candidate (e : genai.exn) : M unit :=
  emit (st_error ("⚠️ My response was stopped before completion: " ++ genai.str e)) ;;
  messages_append
    {| role := "assistant";
       content := "My apologies, my response was cut short. (Stop Candidate: "
                  ++ genai.str e ++ ")" |}.

Definition on_exception (e : genai.exn) : M unit :=
  emit (st_error ("An error occurred: " ++ genai.str e)) ;;
  messages_append
    {| role := "assistant";
       content := "Sorry, an unexpected error occurred: " ++ genai.str e |}.

(** Handling of the chat input (lines 153-198). *)
Definition handle_user_input (w : widgets) (r : remote) : M unit :=
  match user_prompt w with
  | None => ret tt
  | Some user_prompt =>
      if truthy user_prompt then
        key <- read "api_key" api_key ;;
        if negb (truthy key) then
          emit (st_error "⚠️ Please enter your Gemini API Key in the sidebar first!")
        else
          current <- read "chat_session" chat_session ;;
          match current with
          | None =>
              emit (st_error "⚠️ Chat session not initialized. Please check your API key and configuration in the sidebar.")
          | Some _ =>
              messages_append {| role := "user"; content := user_prompt |} ;;
              emit (st_chat_message "user") ;;
              emit (st_markdown user_prompt) ;;
              try_except (get_response r user_prompt)
                [ (genai.BlockedPromptException, on_blocked_prompt);
                  (genai.StopCandidateException, on_stop_candidate);
                  (genai.Exception, on_exception) ]
          end
      else ret tt
  end.

(** One run of [app.py] from top to bottom. *)
Definition script (w : widgets) (r : remote) : M unit :=
  clear_chat_button w ;;
  session_state_initialization w ;;
  chat_session_initialization w r ;;
  display_chat_history ;;
  handle_user_input w r.

Definition result_of {A} (x : outcome A * session_state * list event) : outcome A :=
  fst (fst x).
Definition state_of {A} (x : outcome A * session_state * list event) : session_state :=
  snd (fst x).
Definition log_of {A} (x : outcome A * session_state * list event) : list event :=
  snd x.

(** The session state a run leaves behind for the next one. *)
Definition step (w : widgets) (r : remote) (s : session_state) : session_state :=
  state_of (script w r s).

(** Session states the application can be in between runs. *)
Inductive reachable : session_state -> Prop :=
| reachable_start : reachable empty_session_state
| reachable_step w r s : reachable s -> reachable (step w r s).

(** * Notions used in the statements *)

(** A session state in which every key has been assigned. *)
Definition stored (k m p : string) (l : list message)
    (c : option genai.ChatSession) : session_state :=
  {| api_key := Some k; model_name := Some m; system_prompt := Some p;
     messages := Some l; chat_session := Some c |}.

(** A response that yields the text fragments [fs] and then goes on as
    [tail]. *)
Fixpoint fragments (fs : list string) (tail : genai.stream) : genai.stream :=
  match fs with
  | [] => tail
  | f :: more => genai.Yield (genai.TextChunk f) (fragments more tail)
  end.

(** Concatenation of fragments in arrival order. *)
Fixpoint join (fs : list string) : string :=
  match fs with
  | [] => ""
  | f :: more => f ++ join more
  end.

(** The successive values of the accumulated string, one per fragment,
    starting from [acc]. *)
Fixpoint partials (acc : string) (fs : list string) : list string :=
  match fs with
  | [] => []
  | f :: more => (acc ++ f)%string :: partials (acc ++ f) more
  end.

(** The bodies written to the streaming placeholder, in order. *)
Fixpoint placeholder_bodies (log : list event) : list string :=
  match log with
  | [] => []
  | placeholder_markdown body :: more => body :: placeholder_bodies more
  | _ :: more => placeholder_bodies more
  end.

(** How many times the remote [send_message] was called. *)
Fixpoint send_message_calls (log : list event) : nat :=
  match log with
  | [] => 0
  | call_send_message _ _ :: more => S (send_message_calls more)
  | _ :: more => send_message_calls more
  end.

(** How many times a session creation was attempted. *)
Fixpoint start_chat_calls (log : list event) : nat :=
  match log with
  | [] => 0
  | call_start_chat _ _ _ _ _ :: more => S (start_chat_calls more)
  | _ :: more => start_chat_calls more
  end.


(** The errors shown during a run. *)
Fixpoint errors (log : list event) : list string :=
  match log with
  | [] => []
  | st_error body :: more => body :: errors more
  | _ :: more => errors more
  end.

(** The comparison of the three tracked fields of lines 108-110. *)
Definition tracked_differs (w : widgets) (k m p : string) : bool :=
  negb (k =? api_key_input w) || negb (m =? MODEL_NAME w)
  || negb (p =? system_prompt_input w).

(** The widget values of [w] with the given button and chat input. *)
Definition interaction (w : widgets) (clear : bool) (prompt : option string)
  : widgets :=
  {| env_api_key := env_api_key w; api_key_input := api_key_input w;
     selected_model := selected_model w;
     system_prompt_input := system_prompt_input w;
     temperature := temperature w; max_tokens := max_tokens w;
     clear_chat_history := clear; user_prompt := prompt |}.

(** The chat object a successful creation returns for the widget values
    [w]. *)
Definition new_session (w : widgets) (h : nat) : genai.ChatSession :=
  {| genai.handle := h;
     genai.api_key := api_key_input w;
     genai.model_name := MODEL_NAME w;
     genai.safety_settings := safety_settings;
     genai.generation :=
       {| genai.temperature := temperature w;
          genai.max_output_tokens := max_tokens w |};
     genai.system_instruction :=
       if truthy (strip (system_prompt_input w))
       then Some (system_prompt_input w) else None |}.

(** How a response can end after its leading text fragments. *)
Inductive ending :=
| Completed
| Malformed (repr : string) (rest : genai.stream)
| Failed (e : genai.exn).

Definition ending_stream (x : ending) : genai.stream :=
  match x with
  | Completed => genai.Exhausted
  | Malformed repr rest => genai.Yield (genai.OtherChunk repr) rest
  | Failed e => genai.Raise e
  end.

(** The leading text fragments of a response and how it ends. *)
Fixpoint leading (st : genai.stream) : list string * ending :=
  match st with
  | genai.Exhausted => ([], Completed)
  | genai.Raise e => ([], Failed e)
  | genai.Yield (genai.TextChunk text) rest =>
      (text :: fst (leading rest), snd (leading rest))
  | genai.Yield (genai.OtherChunk repr) rest => ([], Malformed repr rest)
  end.



(** ** Outcome of an exchange *)

(** What an exchange shows before the loop starts. *)
Definition prelude (c : genai.ChatSession) (u : string) : list event :=
  [ st_chat_message "user"; st_markdown u; st_chat_message "assistant";
    st_empty; call_send_message c u ].

(** The notice shown for a failure (the [st.error] of its clause). *)
Definition notice (e : genai.exn) : string :=
  match genai.exn_type e with
  | genai.BlockedPromptException =>
      "⚠️ Your input was blocked by the safety filters: " ++ genai.str e
  | genai.StopCandidateException =>
      "⚠️ My response was stopped before completion: " ++ genai.str e
  | genai.Exception => "An error occurred: " ++ genai.str e
  end.

(** The content of the assistant message recorded for a failure. *)
Definition apology (e : genai.exn) : string :=
  match genai.exn_type e with
  | genai.BlockedPromptException =>
      "I'm sorry, I can't respond to that due to safety guidelines. (Blocked Prompt: "
      ++ genai.str e ++ ")"
  | genai.StopCandidateException =>
      "My apologies, my response was cut short. (Stop Candidate: "
      ++ genai.str e ++ ")"
  | genai.Exception => "Sorry, an unexpected error occurred: " ++ genai.str e
  end.

(** The content of the assistant message an exchange records. *)
Definition reply (fs : list string) (x : ending) : string :=
  match x with
  | Completed | Malformed _ _ => join fs
  | Failed e => apology e
  end.

(** What an exchange shows once the loop is over. *)
Definition closing (fs : list string) (x : ending) : list event :=
  match x with
  | Completed => [placeholder_markdown (join fs)]
  | Malformed repr _ =>
      [st_warning ("Received an unexpected chunk: " ++ repr);
       placeholder_markdown (join fs)]
  | Failed e => [st_error (notice e)]
  end.

(** ** Outcome of a re-initialisation *)

(** The log of a creation attempt for the widget values [w]. *)
Definition creation_call (w : widgets) : event :=
  call_start_chat (api_key_input w) (MODEL_NAME w)
    (if truthy (strip (system_prompt_input w))
     then Some (system_prompt_input w) else None)
    safety_settings
    {| genai.temperature := temperature w;
       genai.max_output_tokens := max_tokens w |}.

(** State and log after the body of the re-initialisation block has run
    with transcript [l]. *)
Definition rebound (w : widgets) (r : remote) (l : list message)
  : session_state * list event :=
  let k := api_key_input w in
  let m := MODEL_NAME w in
  let p := system_prompt_input w in
  if truthy k then
    match start_chat_response r with
    | genai.Started h =>
        (stored k m p [] (Some (new_session w h)),
         [creation_call w;
          st_toast ("Chat session initialized with "
                    ++ display_name (selected_model w) ++ "!") "✅"])
    | genai.StartRaises e =>
        (stored k m p l None,
         [creation_call w;
          st_error ("Error initializing Gemini model: " ++ genai.str e);
          st_error "Failed to initialize chat. Please check API key and model."])
    end
  else
    (stored k m p l None,
     match env_api_key w with
     | Some e =>
         if truthy e then [] else
         [st_warning "Please enter your Gemini API Key in the sidebar to start chatting."]
     | None =>
         [st_warning "Please enter your Gemini API Key in the sidebar to start chatting."]
     end).

(** [key in st.session_state], for the field [x] of the key. *)
Definition present {A} (x : option A) : bool :=
  match x with Some _ => true | None => false end.

(** ** Parts of a run *)

(** The session state after the "Clear Chat History" branch. *)
Definition cleared (s : session_state) : session_state :=
  {| api_key := api_key s; model_name := model_name s;
     system_prompt := system_prompt s; messages := Some [];
     chat_session := Some None |}.

(** The session state after lines 92-103. *)
Definition defaults (w : widgets) (s : session_state) : session_state :=
  {| api_key := Some (match api_key s with Some k => k | None => api_key_input w end);
     model_name := Some (match model_name s with Some m => m | None => MODEL_NAME w end);
     system_prompt :=
       Some (match system_prompt s with Some p => p | None => system_prompt_input w end);
     messages := Some (match messages s with Some l => l | None => [] end);
     chat_session := chat_session s |}.

(** What the history display shows for a transcript. *)
Fixpoint history (l : list message) : list event :=
  match l with
  | [] => []
  | message :: rest =>
      st_chat_message (role message) :: st_markdown (content message) :: history rest
  end.

(** The messages an attempted exchange appends. *)
Definition exchanged (w : widgets) (r : remote) (k : string)
    (c : option genai.ChatSession) : list message :=
  match user_prompt w, c with
  | Some u, Some _ =>
      if truthy u && truthy k then
        [ {| role := "user"; content := u |};
          {| role := "assistant";
             content := reply (fst (leading (send_message_response r)))
                              (snd (leading (send_message_response r))) |} ]
      else []
  | _, _ => []
  end.

(** The session stored by the re-initialisation block. *)
Definition rebound_session (w : widgets) (r : remote) : option genai.ChatSession :=
  if truthy (api_key_input w) then
    match start_chat_response r with
    | genai.Started h => Some (new_session w h)
    | genai.StartRaises _ => None
    end
  else None.

(** The transcript left by the re-initialisation block. *)
Definition rebound_messages (w : widgets) (r : remote) (l : list message)
  : list message :=
  match rebound_session w r with
  | Some _ => []
  | None => l
  end.

(** ** Sample runs *)

Module Sample.

(** The sidebar as first shown, with the key ["k"] typed in. *)
Definition sidebar : widgets :=
  {| env_api_key := None; api_key_input := "k";
     selected_model := Gemini15Flash; system_prompt_input := "";
     temperature := 70; max_tokens := 2048;
     clear_chat_history := false; user_prompt := None |}.

Definition text_stream (fs : list string) : genai.stream :=
  fragments fs genai.Exhausted.

(** A service that accepts the session and answers in three fragments. *)
Definition service : remote :=
  {| start_chat_response := genai.Started 1;
     send_message_response := text_stream ["Hel"; "lo"; " there"] |}.

(** A service that refuses to create a session. *)
Definition refusing : remote :=
  {| start_chat_response :=
       genai.StartRaises {| genai.exn_type := genai.Exception;
                            genai.str := "API key not valid" |};
     send_message_response := genai.Exhausted |}.

(** A service whose [send_message] raises [e]. *)
Definition failing (e : genai.exn) : remote :=
  {| start_chat_response := genai.Started 1;
     send_message_response := genai.Raise e |}.

Definition blocked : genai.exn :=
  {| genai.exn_type := genai.BlockedPromptException; genai.str := "policy X" |}.

(** The state after the first run. *)
Definition opened : session_state := step sidebar service empty_session_state.

(** The state after one exchange. *)
Definition chatted : session_state :=
  step (interaction sidebar false (Some "hi")) service opened.

Definition session : genai.ChatSession := new_session sidebar 1.

Definition hi : message := {| role := "user"; content := "hi" |}.
Definition hello : message := {| role := "assistant"; content := "Hello there" |}.

End Sample.

(** ** Prefixes of the fragment list *)

(** The concatenations [f1 ++ ... ++ fi] for [i = 1 .. n]. *)
Definition prefixes (fs : list string) : list string :=
  map (fun i => join (firstn i fs)) (seq 1 (length fs)).

(** ** Reachable session states *)

(** The session [c] is one created from the tracked settings [k], [m],
    [p], with a non-empty key. *)
Definition bound_to (c : genai.ChatSession) (k m p : string) : Prop :=
  genai.api_key c = k /\ genai.model_name c = m /\
  genai.system_instruction c = (if truthy (strip p) then Some p else None) /\
  truthy k = true.

(** A live session belongs to the stored configuration. *)
Definition session_matches_configuration (s : session_state) : Prop :=
  forall c, chat_session s = Some (Some c) ->
  exists k m p l, s = stored k m p l (Some c) /\ bound_to c k m p.

(** The three forms of a session state between runs. *)
Definition settled (s : session_state) : Prop :=
  s = empty_session_state \/
  s = cleared empty_session_state \/
  exists k m p l c,
    s = stored k m p l c /\ forall x, c = Some x -> bound_to x k m p.

(** ** Variations of the widget values *)

(** The widget values of [w] with other sampling parameters. *)
Definition with_sampling (w : widgets) (t n : Z) : widgets :=
  {| env_api_key := env_api_key w; api_key_input := api_key_input w;
     selected_model := selected_model w;
     system_prompt_input := system_prompt_input w;
     temperature := t; max_tokens := n;
     clear_chat_history := clear_chat_history w; user_prompt := user_prompt w |}.

(** The widget values of [w] with another model selected. *)
Definition with_model (w : widgets) (model : model_option) : widgets :=
  {| env_api_key := env_api_key w; api_key_input := api_key_input w;
     selected_model := model;
     system_prompt_input := system_prompt_input w;
     temperature := temperature w; max_tokens := max_tokens w;
     clear_chat_history := clear_chat_history w; user_prompt := user_prompt w |}.

(** The widget values of [w] with another key typed in. *)
Definition with_key (w : widgets) (key : string) : widgets :=
  {| env_api_key := env_api_key w; api_key_input := key;
     selected_model := selected_model w;
     system_prompt_input := system_prompt_input w;
     temperature := temperature w; max_tokens := max_tokens w;
     clear_chat_history := clear_chat_history w; user_prompt := user_prompt w |}.

(** * Notions used in the further properties *)

(** The messages a log renders: each [st.chat_message] container that is
    followed at once by an [st.markdown], as a message. *)
Fixpoint rendered (log : list event) : list message :=
  match log with
  | [] => []
  | st_chat_message name :: more =>
      match more with
      | st_markdown body :: _ => {| role := name; content := body |} :: rendered more
      | _ => rendered more
      end
  | _ :: more => rendered more
  end.

(** The calls of [send_message] a log holds: the session called and the
    text passed. *)
Fixpoint sent (log : list event) : list (genai.ChatSession * string) :=
  match log with
  | [] => []
  | call_send_message session text :: more => (session, text) :: sent more
  | _ :: more => sent more
  end.

(** The creation calls a log holds. *)
Fixpoint creations (log : list event) : list event :=
  match log with
  | [] => []
  | call_start_chat key model instruction safety gen :: more =>
      call_start_chat key model instruction safety gen :: creations more
  | _ :: more => creations more
  end.

(** The transcript made of the given exchanges: for each pair a user
    message followed by an assistant message. *)
Fixpoint exchanges (pairs : list (string * string)) : list message :=
  match pairs with
  | [] => []
  | (question, answer) :: more =>
      {| role := "user"; content := question |}
      :: {| role := "assistant"; content := answer |} :: exchanges more
  end.

(** A string of whitespace characters only (the empty string included),
    each of one, two or three bytes. *)
Fixpoint blank (s : string) : bool :=
  match s with
  | EmptyString => true
  | String a rest =>
      if isspace (String a EmptyString) then blank rest else
      match rest with
      | String b rest2 =>
          if isspace (String a (String b EmptyString)) then blank rest2 else
          match rest2 with
          | String c rest3 =>
              isspace (String a (String b (String c EmptyString))) && blank rest3
          | EmptyString => false
          end
      | EmptyString => false
      end
  end.

(** The string starts with a whitespace character. *)
Definition starts_with_space (s : string) : bool :=
  match s with
  | String a rest =>
      isspace (String a EmptyString) ||
      match rest with
      | String b rest2 =>
          isspace (String a (String b EmptyString)) ||
          match rest2 with
          | String c _ => isspace (String a (String b (String c EmptyString)))
          | EmptyString => false
          end
      | EmptyString => false
      end
  | EmptyString => false
  end.

(** The session state after a sequence of runs. *)
Fixpoint run_all (runs : list (widgets * remote)) (s : session_state)
  : session_state :=
  match runs with
  | [] => s
  | (w, r) :: more => run_all more (step w r s)
  end.

(** A run in which the button is not clicked and the tracked widget
    values are [k], [m], [p]. *)
Definition keeps_settings (k m p : string) (run : widgets * remote) : Prop :=
  clear_chat_history (fst run) = false /\ tracked_differs (fst run) k m p = false.

(** * Properties *)

(** ** Strings and logs *)

Lemma append_nil_r (s : string) : (s ++ "")%string = s.
Proof. induction s as [|c s IH]; simpl; [reflexivity | now rewrite IH]. Qed.

Lemma append_assoc (a b c : string) :
  ((a ++ b) ++ c)%string = (a ++ (b ++ c))%string.
Proof. induction a as [|x a IH]; simpl; [reflexivity | now rewrite IH]. Qed.

Lemma prefix_append (n b : string) : prefix n (n ++ b) = true.
Proof.
  induction n as [|x n IH]; simpl.
  - now destruct b.
  - destruct (ascii_dec x x) as [_|ne]; [exact IH | now elim ne].
Qed.

Lemma contains_prefix (n h : string) : prefix n h = true -> contains n h = true.
Proof. intros H. destruct h; cbn [contains]; now rewrite H. Qed.

Lemma contains_append (n a b : string) : contains n (a ++ n ++ b) = true.
Proof.
  induction a as [|x a IH].
  - change (contains n (n ++ b) = true).
    apply contains_prefix, prefix_append.
  - change (contains n (String x (a ++ n ++ b)) = true).
    cbn [contains]. rewrite IH. apply orb_true_r.
Qed.

Lemma truthy_strip_nonempty (s : string) : truthy (strip s) = true -> truthy s = true.
Proof. now destruct s. Qed.

Lemma placeholder_bodies_app (l1 l2 : list event) :
  placeholder_bodies (l1 ++ l2) = (placeholder_bodies l1 ++ placeholder_bodies l2)%list.
Proof.
  induction l1 as [|e l1 IH]; simpl; [reflexivity|].
  destruct e; simpl; now rewrite IH.
Qed.

Lemma placeholder_bodies_cursor (ps : list string) :
  placeholder_bodies (map (fun p => placeholder_markdown (p ++ "▌")) ps)
  = map (fun p => (p ++ "▌")%string) ps.
Proof. induction ps as [|p ps IH]; simpl; [reflexivity | now rewrite IH]. Qed.

Lemma send_message_calls_app (l1 l2 : list event) :
  send_message_calls (l1 ++ l2) = send_message_calls l1 + send_message_calls l2.
Proof.
  induction l1 as [|e l1 IH]; simpl; [reflexivity|].
  destruct e; simpl; now rewrite IH.
Qed.



(** ** The streaming loop *)

(** The loop never assigns to the session state. *)
Lemma for_chunk_in_state (st : genai.stream) (acc : string) (s : session_state) :
  state_of (for_chunk_in st acc s) = s.
Proof.
  revert acc. induction st as [|c rest IH|e]; intros acc; try reflexivity.
  destruct c as [text|repr]; [|reflexivity].
  cbn [for_chunk_in]. unfold bind, emit.
  specialize (IH (acc ++ text)%string).
  destruct (for_chunk_in rest (acc ++ text) s) as [[o s'] l].
  exact IH.
Qed.

(** Text fragments are accumulated and shown one by one, then the loop
    goes on with what follows them. *)
Lemma for_chunk_in_fragments (fs : list string) (tail : genai.stream)
    (acc : string) (s : session_state) :
  for_chunk_in (fragments fs tail) acc s =
  match for_chunk_in tail (acc ++ join fs) s with
  | (o, s', l) =>
      (o, s', (map (fun p => placeholder_markdown (p ++ "▌")) (partials acc fs) ++ l)%list)
  end.
Proof.
  revert acc. induction fs as [|f more IH]; intros acc.
  - cbn [fragments join partials map]. rewrite append_nil_r.
    now destruct (for_chunk_in tail acc s) as [[o s'] l].
  - cbn [fragments for_chunk_in join partials map]. unfold bind at 1. unfold emit at 1.
    rewrite IH, append_assoc.
    now destruct (for_chunk_in tail (acc ++ f ++ join more) s) as [[o s'] l].
Qed.

Lemma leading_fragments (st : genai.stream) :
  st = fragments (fst (leading st)) (ending_stream (snd (leading st))).
Proof.
  induction st as [|c rest IH|e]; try reflexivity.
  destruct c as [text|repr]; [|reflexivity].
  cbn [leading fst snd fragments]. now rewrite <- IH.
Qed.

Lemma leading_of_fragments (fs : list string) (x : ending) :
  leading (fragments fs (ending_stream x)) = (fs, x).
Proof.
  induction fs as [|f more IH].
  - now destruct x.
  - cbn [fragments leading]. now rewrite IH.
Qed.

(** The loop on any response, by its leading fragments and its ending. *)
Lemma for_chunk_in_leading (st : genai.stream) (acc : string) (s : session_state) :
  for_chunk_in st acc s =
  let fs := fst (leading st) in
  let shown := map (fun p => placeholder_markdown (p ++ "▌")) (partials acc fs) in
  match snd (leading st) with
  | Completed => (Returned ((acc ++ join fs)%string, genai.Exhausted), s, shown)
  | Malformed repr rest =>
      (Returned ((acc ++ join fs)%string, rest), s,
       (shown ++ [st_warning ("Received an unexpected chunk: " ++ repr)])%list)
  | Failed e => (Raised e, s, shown)
  end.
Proof.
  rewrite (leading_fragments st) at 1.
  rewrite for_chunk_in_fragments.
  destruct (snd (leading st)) as [|repr rest|e]; cbn.
  - now rewrite app_nil_r.
  - reflexivity.
  - now rewrite app_nil_r.
Qed.

(** ** The exchange *)

(** An exchange whose preconditions pass, for any response of the remote
    service. *)
Lemma handle_user_input_exchange (w : widgets) (r : remote) (k m p u : string)
    (l : list message) (c : genai.ChatSession) :
  truthy k = true -> user_prompt w = Some u -> truthy u = true ->
  let fs := fst (leading (send_message_response r)) in
  let x := snd (leading (send_message_response r)) in
  handle_user_input w r (stored k m p l (Some c)) =
  (Returned tt,
   stored k m p
     (l ++ [ {| role := "user"; content := u |};
             {| role := "assistant"; content := reply fs x |} ]) (Some c),
   (prelude c u
    ++ map (fun p => placeholder_markdown (p ++ "▌")) (partials "" fs)
    ++ closing fs x)%list).
Proof.
  intros Hk Hu Ht fs x.
  unfold handle_user_input. rewrite Hu, Ht.
  unfold bind at 1. unfold read at 1. cbn [api_key stored]. rewrite Hk. cbn [negb].
  unfold try_except, get_response, messages_append, bind, emit, read, set_messages.
  cbn [chat_session messages api_key model_name system_prompt stored].
  rewrite for_chunk_in_leading. fold fs. fold x. cbn zeta.
  unfold stored.
  destruct x as [|repr rest|e]; cbn.
  - rewrite <- !app_assoc. reflexivity.
  - rewrite <- !app_assoc. reflexivity.
  - unfold on_blocked_prompt, on_stop_candidate, on_exception, notice, apology,
      messages_append, bind, emit, read, set_messages.
    destruct e as [[| |] d]; cbn; rewrite <- !app_assoc; reflexivity.
Qed.

(** ** The session manager *)

(** The re-initialisation block on a state whose other keys are set. *)
Lemma chat_session_initialization_run (w : widgets) (r : remote)
    (k m p : string) (l : list message) (cs : option (option genai.ChatSession)) :
  let s := {| api_key := Some k; model_name := Some m; system_prompt := Some p;
              messages := Some l; chat_session := cs |} in
  chat_session_initialization w r s =
  if negb (present cs) || tracked_differs w k m p
  then (Returned tt, fst (rebound w r l), snd (rebound w r l))
  else (Returned tt, s, []).
Proof.
  intros s.
  assert (body : reinitialize w r s
    = (Returned tt, fst (rebound w r l), snd (rebound w r l))).
  { unfold reinitialize, rebound, bind, set_api_key, set_model_name, set_system_prompt, read, s.
    cbn [api_key model_name system_prompt messages chat_session].
    destruct (truthy (api_key_input w)) eqn:Hk.
    - unfold initialize_chat_session, try_except, bind, emit, raise, ret,
        set_chat_session, set_messages, read, creation_call, new_session, stored.
      cbn [api_key model_name system_prompt messages chat_session].
      destruct (truthy (strip (system_prompt_input w))) eqn:Hp.
      + rewrite (truthy_strip_nonempty _ Hp).
        destruct (start_chat_response r) as [h|e]; reflexivity.
      + destruct (start_chat_response r) as [h|e]; reflexivity.
    - unfold set_chat_session, emit, ret, stored.
      cbn [api_key model_name system_prompt messages chat_session].
      destruct (env_api_key w) as [e|]; [destruct (truthy e)|]; reflexivity. }
  unfold chat_session_initialization.
  unfold bind at 1.
  unfold settings_changed, orM, bind, has, read, ret, tracked_differs.
  revert body. subst s. intros body.
  destruct cs as [c|]; cbn [present negb orb chat_session].
  - cbn [api_key]. destruct (k =? api_key_input w); cbn [negb orb].
    + cbn [model_name]. destruct (m =? MODEL_NAME w); cbn [negb orb].
      * cbn [system_prompt].
        destruct (p =? system_prompt_input w); cbn [negb orb app].
        -- reflexivity.
        -- rewrite body. reflexivity.
      * rewrite body. reflexivity.
    + rewrite body. reflexivity.
  - rewrite body. reflexivity.
Qed.

(** ** Whole runs *)

Lemma clear_chat_button_clicked (w : widgets) (s : session_state) :
  clear_chat_history w = true ->
  clear_chat_button w s = (Rerun, cleared s, [st_rerun]).
Proof. intros H. unfold clear_chat_button. now rewrite H. Qed.

Lemma session_state_initialization_run (w : widgets) (s : session_state) :
  session_state_initialization w s = (Returned tt, defaults w s, []).
Proof. now destruct s as [[k|] [m|] [p|] [l|] cs]. Qed.

Lemma display_messages_run (l : list message) (s : session_state) :
  display_messages l s = (Returned tt, s, history l).
Proof.
  induction l as [|x l IH]; [reflexivity|].
  cbn [display_messages history]. unfold bind, emit. now rewrite IH.
Qed.

Lemma display_chat_history_run (k m p : string) (l : list message)
    (c : option genai.ChatSession) :
  display_chat_history (stored k m p l c) = (Returned tt, stored k m p l c, history l).
Proof.
  unfold display_chat_history, bind, read. cbn [messages stored].
  now rewrite display_messages_run.
Qed.

(** A run in which the button is clicked stops at [st.rerun()]. *)
Lemma script_clear (w : widgets) (r : remote) (s : session_state) :
  clear_chat_history w = true ->
  script w r s = (Rerun, cleared s, [st_rerun]).
Proof.
  intros H. unfold script. unfold bind at 1.
  now rewrite (clear_chat_button_clicked w s H).
Qed.

(** A run in which the button is not clicked goes through the four later
    parts of the script. *)
Lemma script_no_clear (w : widgets) (r : remote) (s : session_state) :
  clear_chat_history w = false ->
  script w r s =
  (chat_session_initialization w r ;;
   display_chat_history ;;
   handle_user_input w r) (defaults w s).
Proof.
  intros H. unfold script. unfold bind at 1. unfold clear_chat_button.
  rewrite H. unfold ret at 1. unfold bind at 1.
  rewrite session_state_initialization_run.
  cbn [app].
  destruct ((chat_session_initialization w r;; display_chat_history;;
             handle_user_input w r) (defaults w s)) as [[o s2] l2].
  reflexivity.
Qed.

(** The chat input handler returns normally and assigns only to
    [messages], by appending. *)
Lemma handle_user_input_run (w : widgets) (r : remote) (k m p : string)
    (l : list message) (c : option genai.ChatSession) :
  handle_user_input w r (stored k m p l c) =
  (Returned tt, stored k m p (l ++ exchanged w r k c) c,
   log_of (handle_user_input w r (stored k m p l c))).
Proof.
  unfold exchanged.
  destruct (user_prompt w) as [u|] eqn:Hu.
  2:{ unfold handle_user_input. rewrite Hu. cbn. now rewrite app_nil_r. }
  destruct (truthy u) eqn:Ht.
  2:{ unfold handle_user_input. rewrite Hu, Ht.
      destruct c; cbn; now rewrite app_nil_r. }
  destruct (truthy k) eqn:Hk.
  2:{ unfold handle_user_input. rewrite Hu, Ht. unfold bind, read, emit.
      cbn [api_key stored]. rewrite Hk.
      destruct c; cbn; now rewrite app_nil_r. }
  destruct c as [c|].
  - rewrite (handle_user_input_exchange w r k m p u l c Hk Hu Ht). reflexivity.
  - unfold handle_user_input. rewrite Hu, Ht. unfold bind, read, emit.
    cbn [api_key stored]. rewrite Hk. cbn. now rewrite app_nil_r.
Qed.

Lemma rebound_state (w : widgets) (r : remote) (l : list message) :
  fst (rebound w r l) =
  stored (api_key_input w) (MODEL_NAME w) (system_prompt_input w)
    (rebound_messages w r l) (rebound_session w r).
Proof.
  unfold rebound, rebound_messages, rebound_session.
  destruct (truthy (api_key_input w)); [|reflexivity].
  now destruct (start_chat_response r).
Qed.

(** A run, clear button not clicked, that finds the tracked settings as
    stored and the session key set. *)
Lemma script_unchanged_settings (w : widgets) (r : remote) (k m p : string)
    (l : list message) (c : option genai.ChatSession) :
  clear_chat_history w = false ->
  tracked_differs w k m p = false ->
  script w r (stored k m p l c) =
  (Returned tt, stored k m p (l ++ exchanged w r k c) c,
   (history l ++ log_of (handle_user_input w r (stored k m p l c)))%list).
Proof.
  intros Hc Hd. rewrite (script_no_clear w r _ Hc).
  change (defaults w (stored k m p l c)) with (stored k m p l c).
  unfold bind at 1.
  pose proof (chat_session_initialization_run w r k m p l (Some c)) as E.
  cbn zeta in E. change (chat_session_initialization w r (stored k m p l c) =
    if negb (present (Some c)) || tracked_differs w k m p
    then (Returned tt, fst (rebound w r l), snd (rebound w r l))
    else (Returned tt, stored k m p l c, [])) in E.
  rewrite E, Hd. cbn [present negb orb].
  unfold bind at 1. rewrite display_chat_history_run.
  rewrite handle_user_input_run. cbn [log_of snd app]. reflexivity.
Qed.

(** A run, clear button not clicked, that finds no session key or a tracked
    setting changed. *)
Lemma script_changed_settings (w : widgets) (r : remote) (k m p : string)
    (l : list message) (cs : option (option genai.ChatSession)) :
  clear_chat_history w = false ->
  negb (present cs) || tracked_differs w k m p = true ->
  let s := {| api_key := Some k; model_name := Some m; system_prompt := Some p;
              messages := Some l; chat_session := cs |} in
  let k1 := api_key_input w in
  let l1 := rebound_messages w r l in
  let c1 := rebound_session w r in
  script w r s =
  (Returned tt,
   stored k1 (MODEL_NAME w) (system_prompt_input w) (l1 ++ exchanged w r k1 c1) c1,
   (snd (rebound w r l) ++ history l1
    ++ log_of (handle_user_input w r
                 (stored k1 (MODEL_NAME w) (system_prompt_input w) l1 c1)))%list).
Proof.
  intros Hc Hd s k1 l1 c1. rewrite (script_no_clear w r _ Hc).
  change (defaults w s) with s.
  unfold bind at 1.
  pose proof (chat_session_initialization_run w r k m p l cs) as E.
  cbn zeta in E. fold s in E. rewrite E, Hd, rebound_state.
  fold k1 l1 c1.
  unfold bind at 1. rewrite display_chat_history_run.
  rewrite handle_user_input_run. cbn [log_of snd]. reflexivity.
Qed.

(** ** Sample runs *)

Lemma opened_eq :
  Sample.opened = stored "k" "gemini-1.5-flash-latest" "" [] (Some Sample.session).
Proof. reflexivity. Qed.

Lemma chatted_eq :
  Sample.chatted = stored "k" "gemini-1.5-flash-latest" "" [Sample.hi; Sample.hello] (Some Sample.session).
Proof. reflexivity. Qed.

Lemma opened_reachable : reachable Sample.opened.
Proof. apply reachable_step, reachable_start. Qed.

Lemma chatted_reachable : reachable Sample.chatted.
Proof. apply reachable_step, opened_reachable. Qed.

(** ** Prefixes of the fragment list *)

Lemma partials_firstn (acc : string) (fs : list string) :
  partials acc fs =
  map (fun i => (acc ++ join (firstn i fs))%string) (seq 1 (length fs)).
Proof.
  revert acc. induction fs as [|f more IH]; intros acc; [reflexivity|].
  cbn [partials length seq map firstn join]. rewrite append_nil_r.
  rewrite IH, <- (seq_shift (length more) 1), map_map.
  apply f_equal, map_ext. intros i. cbn [firstn join]. apply append_assoc.
Qed.

Lemma partials_prefixes (fs : list string) : partials "" fs = prefixes fs.
Proof. unfold prefixes. now rewrite partials_firstn. Qed.

(** ** The message exchange loop: claims *)

Section Exchange.

(** A send whose preconditions pass: the key is set, a session [c] is
    live and the chat input holds the non-empty text [u]. *)
Variables (w : widgets) (r : remote) (k m p u : string).
Variables (l : list message) (c : genai.ChatSession).
Hypothesis key_set : truthy k = true.
Hypothesis prompt_given : user_prompt w = Some u.
Hypothesis prompt_not_empty : truthy u = true.

Local Ltac exchange :=
  rewrite (handle_user_input_exchange w r k m p u l c
             key_set prompt_given prompt_not_empty).

(** C2, as amended.  For a send whose preconditions pass and whose
    response yields the text fragments [fs] and then ends normally, the
    handler returns normally, appends the user message and exactly one
    assistant message whose content is the concatenation of [fs] in
    arrival order, and writes to the streaming placeholder, in order, each
    prefix [f1 ++ ... ++ fi] followed by the cursor glyph and finally the
    whole concatenation without it. *)
Theorem streamed_reply_is_shown_progressively (fs : list string) :
  send_message_response r = fragments fs genai.Exhausted ->
  let out := handle_user_input w r (stored k m p l (Some c)) in
  result_of out = Returned tt /\
  state_of out =
    stored k m p (l ++ [ {| role := "user"; content := u |};
                         {| role := "assistant"; content := join fs |} ]) (Some c) /\
  placeholder_bodies (log_of out) =
    (map (fun q => (q ++ "▌")%string) (prefixes fs) ++ [join fs])%list.
Proof.
  intros Hr out. subst out. exchange.
  rewrite Hr. change genai.Exhausted with (ending_stream Completed).
  rewrite leading_of_fragments. cbn [fst snd reply closing result_of state_of log_of].
  repeat split.
  unfold prelude. rewrite !placeholder_bodies_app, placeholder_bodies_cursor.
  now rewrite partials_prefixes.
Qed.


(** C4.  For a send whose preconditions pass and whose remote call raises
    [e], at once or after some fragments, the handler returns normally (no
    exception escapes), has called [send_message] exactly once (no retry),
    and has appended, after the user message, exactly one assistant message
    whose content contains the description [str(e)] of the error. *)
Theorem failure_is_recorded_as_placeholder (fs : list string) (e : genai.exn) :
  send_message_response r = fragments fs (genai.Raise e) ->
  let out := handle_user_input w r (stored k m p l (Some c)) in
  result_of out = Returned tt /\
  send_message_calls (log_of out) = 1 /\
  exists text,
    state_of out =
      stored k m p (l ++ [ {| role := "user"; content := u |};
                           {| role := "assistant"; content := text |} ]) (Some c) /\
    contains (genai.str e) text = true.
Proof.
  intros Hr out. subst out. exchange.
  rewrite Hr. change (genai.Raise e) with (ending_stream (Failed e)).
  rewrite leading_of_fragments. cbn [fst snd reply closing result_of state_of log_of].
  split; [reflexivity|]. split.
  - rewrite !send_message_calls_app. cbn [prelude send_message_calls].
    assert (H : forall ps, send_message_calls
                (map (fun q => placeholder_markdown (q ++ "▌")) ps) = 0)
      by (induction ps; auto).
    now rewrite H.
  - exists (apology e). split; [reflexivity|].
    unfold apology. destruct (genai.exn_type e).
    + apply contains_append.
    + apply contains_append.
    + rewrite <- (append_nil_r (genai.str e)) at 2. apply contains_append.
Qed.


(** C6.  For a send whose preconditions pass, whatever the remote service
    answers (fragments, a malformed chunk, any exception), the handler
    returns normally and the user message stands in the transcript right
    after the messages that were there. *)
Theorem user_message_is_always_appended :
  let out := handle_user_input w r (stored k m p l (Some c)) in
  result_of out = Returned tt /\
  exists rest,
    messages (state_of out) = Some (l ++ {| role := "user"; content := u |} :: rest).
Proof.
  intros out. subst out. exchange.
  split; [reflexivity|]. eexists. reflexivity.
Qed.






End Exchange.

(** *** The claims at sample inputs *)

Lemma streamed_reply_is_shown_progressively_witness :
  let out := handle_user_input (interaction Sample.sidebar false (Some "hi"))
               Sample.service Sample.opened in
  state_of out = Sample.chatted /\
  placeholder_bodies (log_of out) = ["Hel▌"; "Hello▌"; "Hello there▌"; "Hello there"].
Proof.
  pose proof (streamed_reply_is_shown_progressively
                (interaction Sample.sidebar false (Some "hi")) Sample.service
                "k" "gemini-1.5-flash-latest" "" "hi" [] Sample.session
                eq_refl eq_refl eq_refl ["Hel"; "lo"; " there"] eq_refl) as [_ [Hs Hl]].
  split; [exact Hs | exact Hl].
Defined.

(** C2, as stated, fails on the fragments ["Hel"], ["lo"], [" there"]: the
    states shown in the placeholder are not ["Hel"], ["Hello"],
    ["Hello there"]; the string ["Hel"] is never shown. *)
Lemma intermediate_states_carry_cursor :
  let out := handle_user_input (interaction Sample.sidebar false (Some "hi"))
               Sample.service Sample.opened in
  placeholder_bodies (log_of out) <> ["Hel"; "Hello"; "Hello there"] /\
  ~ In "Hel" (placeholder_bodies (log_of out)).
Proof.
  cbv zeta. split.
  - vm_compute. discriminate.
  - vm_compute. intros [H|[H|[H|[H|[]]]]]; discriminate.
Qed.

Lemma failure_is_recorded_as_placeholder_witness :
  let out := handle_user_input (interaction Sample.sidebar false (Some "hi"))
               (Sample.failing Sample.blocked) Sample.opened in
  result_of out = Returned tt /\
  send_message_calls (log_of out) = 1 /\
  exists text,
    state_of out =
      stored "k" "gemini-1.5-flash-latest" ""
        [Sample.hi; {| role := "assistant"; content := text |}] (Some Sample.session) /\
    contains "policy X" text = true.
Proof.
  exact (failure_is_recorded_as_placeholder
           (interaction Sample.sidebar false (Some "hi"))
           (Sample.failing Sample.blocked)
           "k" "gemini-1.5-flash-latest" "" "hi" [] Sample.session
           eq_refl eq_refl eq_refl [] Sample.blocked eq_refl).
Defined.

Lemma user_message_is_always_appended_witness :
  let out := handle_user_input (interaction Sample.sidebar false (Some "hi"))
               (Sample.failing Sample.blocked) Sample.chatted in
  result_of out = Returned tt /\
  exists rest,
    messages (state_of out) =
      Some ([Sample.hi; Sample.hello] ++ {| role := "user"; content := "hi" |} :: rest).
Proof.
  exact (user_message_is_always_appended
           (interaction Sample.sidebar false (Some "hi"))
           (Sample.failing Sample.blocked)
           "k" "gemini-1.5-flash-latest" "" "hi" [Sample.hi; Sample.hello]
           Sample.session eq_refl eq_refl eq_refl).
Defined.




(** *** Refused sends *)

(** C8.  A send attempted without a usable key or with no session returns
    at once: the handler shows one error (the missing key when the key is
    empty, the missing session otherwise), calls nothing, and leaves the
    session state, hence the transcript, as it was. *)
Theorem send_without_session_is_refused (w : widgets) (r : remote)
    (k m p u : string) (l : list message) (c : option genai.ChatSession) :
  user_prompt w = Some u -> truthy u = true ->
  truthy k = false \/ c = None ->
  handle_user_input w r (stored k m p l c) =
  (Returned tt, stored k m p l c,
   [st_error
      (if truthy k
       then "⚠️ Chat session not initialized. Please check your API key and configuration in the sidebar."
       else "⚠️ Please enter your Gemini API Key in the sidebar first!")]).
Proof.
  intros Hu Ht H. unfold handle_user_input. rewrite Hu, Ht.
  unfold bind, read, emit. cbn [api_key chat_session stored].
  destruct (truthy k) eqn:Hk; cbn [negb].
  - destruct H as [H|H]; [discriminate|]. subst c. reflexivity.
  - reflexivity.
Qed.

Lemma send_without_session_is_refused_witness :
  handle_user_input (interaction Sample.sidebar false (Some "hi")) Sample.service
    (stored "k" "gemini-1.5-flash-latest" "" [] None) =
  (Returned tt, stored "k" "gemini-1.5-flash-latest" "" [] None,
   [st_error "⚠️ Chat session not initialized. Please check your API key and configuration in the sidebar."]).
Proof.
  exact (send_without_session_is_refused
           (interaction Sample.sidebar false (Some "hi")) Sample.service
           "k" "gemini-1.5-flash-latest" "" "hi" [] None
           eq_refl eq_refl (or_intror eq_refl)).
Defined.

(** ** Reachable session states *)

Lemma script_defaults (w : widgets) (r : remote) (s : session_state) :
  clear_chat_history w = false -> script w r s = script w r (defaults w s).
Proof.
  intros H. rewrite !(script_no_clear w r _ H).
  now destruct s as [[k|] [m|] [p|] [l|] cs].
Qed.

Lemma tracked_differs_same (w : widgets) :
  tracked_differs w (api_key_input w) (MODEL_NAME w) (system_prompt_input w) = false.
Proof. unfold tracked_differs. now rewrite !String.eqb_refl. Qed.

Lemma rebound_session_bound (w : widgets) (r : remote) (x : genai.ChatSession) :
  rebound_session w r = Some x ->
  bound_to x (api_key_input w) (MODEL_NAME w) (system_prompt_input w).
Proof.
  unfold rebound_session.
  destruct (truthy (api_key_input w)) eqn:Hk; [|discriminate].
  destruct (start_chat_response r) as [h|e]; [|discriminate].
  intros H. injection H as <-. now repeat split.
Qed.

Lemma exchanged_without_session (w : widgets) (r : remote) (k : string) :
  exchanged w r k None = [].
Proof. unfold exchanged. now destruct (user_prompt w). Qed.

Lemma step_settled (w : widgets) (r : remote) (s : session_state) :
  settled s -> settled (step w r s).
Proof.
  intros H. unfold step. destruct (clear_chat_history w) eqn:Hc.
  - rewrite (script_clear w r s Hc). cbn [state_of fst snd].
    destruct H as [->|[->|(k & m & p & l & c & -> & _)]].
    + right. left. reflexivity.
    + right. left. reflexivity.
    + right. right. exists k, m, p, [], None. split; [reflexivity|discriminate].
  - right. right.
    destruct H as [->|[->|(k & m & p & l & c & -> & Hb)]].
    + rewrite (script_defaults w r _ Hc).
      pose proof (script_changed_settings w r (api_key_input w) (MODEL_NAME w)
                    (system_prompt_input w) [] None Hc eq_refl) as E.
      cbv zeta in E. change (defaults w empty_session_state) with
        {| api_key := Some (api_key_input w); model_name := Some (MODEL_NAME w);
           system_prompt := Some (system_prompt_input w); messages := Some [];
           chat_session := None |}.
      rewrite E. cbn [state_of fst snd].
      do 5 eexists. split; [reflexivity|]. apply rebound_session_bound.
    + rewrite (script_defaults w r _ Hc).
      change (defaults w (cleared empty_session_state)) with
        (stored (api_key_input w) (MODEL_NAME w) (system_prompt_input w) [] None).
      rewrite (script_unchanged_settings w r _ _ _ _ _ Hc (tracked_differs_same w)).
      cbn [state_of fst snd].
      do 5 eexists. split; [reflexivity|discriminate].
    + destruct (tracked_differs w k m p) eqn:Hd.
      * pose proof (script_changed_settings w r k m p l (Some c) Hc) as E.
        cbv zeta in E. rewrite Hd in E. specialize (E eq_refl).
        change {| api_key := Some k; model_name := Some m; system_prompt := Some p;
                  messages := Some l; chat_session := Some c |}
          with (stored k m p l c) in E.
        rewrite E. cbn [state_of fst snd].
        do 5 eexists. split; [reflexivity|]. apply rebound_session_bound.
      * rewrite (script_unchanged_settings w r k m p l c Hc Hd).
        cbn [state_of fst snd].
        do 5 eexists. split; [reflexivity|exact Hb].
Qed.

Lemma reachable_settled (s : session_state) : reachable s -> settled s.
Proof.
  induction 1 as [|w r s _ IH]; [now left | now apply step_settled].
Qed.

(** In every reachable state a live session is one created from the stored
    configuration. *)
Lemma reachable_session_matches_configuration (s : session_state) :
  reachable s -> session_matches_configuration s.
Proof.
  intros H c Hs.
  destruct (reachable_settled s H) as [->|[->|(k & m & p & l & c0 & -> & Hb)]];
    try discriminate.
  cbn [chat_session stored] in Hs. injection Hs as ->.
  exists k, m, p, l. split; [reflexivity | now apply Hb].
Qed.

(** Without a session the chat input handler calls nothing. *)
Lemma handle_user_input_unset_log (w : widgets) (r : remote) (k m p : string)
    (l : list message) :
  start_chat_calls (log_of (handle_user_input w r (stored k m p l None))) = 0 /\
  send_message_calls (log_of (handle_user_input w r (stored k m p l None))) = 0.
Proof.
  unfold handle_user_input.
  destruct (user_prompt w) as [u|]; [|now split].
  destruct (truthy u); [|now split].
  unfold bind, read, emit. cbn [api_key stored].
  destruct (truthy k); cbn; now split.
Qed.

(** After a click on the clear button the session stays unset for as long
    as the tracked settings stay as stored: no run recreates it, and a send
    is refused. *)
Lemma unset_session_is_not_recreated (w : widgets) (r : remote) (k m p : string)
    (l : list message) :
  clear_chat_history w = false ->
  tracked_differs w k m p = false ->
  result_of (script w r (stored k m p l None)) = Returned tt /\
  state_of (script w r (stored k m p l None)) = stored k m p l None /\
  start_chat_calls (log_of (script w r (stored k m p l None))) = 0 /\
  send_message_calls (log_of (script w r (stored k m p l None))) = 0.
Proof.
  intros Hc Hd. rewrite (script_unchanged_settings w r k m p l None Hc Hd).
  rewrite exchanged_without_session, app_nil_r.
  cbn [result_of state_of log_of fst snd].
  assert (Hh1 : forall x rest, start_chat_calls (history x ++ rest) = start_chat_calls rest)
    by (induction x; auto).
  assert (Hh2 : forall x rest, send_message_calls (history x ++ rest) = send_message_calls rest)
    by (induction x; auto).
  rewrite Hh1, Hh2.
  destruct (handle_user_input_unset_log w r k m p l) as [H1 H2].
  now rewrite H1, H2.
Qed.

(** No exception escapes a run of the script, from any session state: it
    ends normally or at [st.rerun()]. *)
Lemma script_returns_or_reruns (w : widgets) (r : remote) (s : session_state) :
  result_of (script w r s) = (if clear_chat_history w then Rerun else Returned tt).
Proof.
  destruct (clear_chat_history w) eqn:Hc.
  - now rewrite (script_clear w r s Hc).
  - rewrite (script_defaults w r s Hc).
    set (k := match api_key s with Some k => k | None => api_key_input w end).
    set (m := match model_name s with Some m => m | None => MODEL_NAME w end).
    set (p := match system_prompt s with Some p => p | None => system_prompt_input w end).
    set (l := match messages s with Some l => l | None => [] end).
    change (defaults w s) with
      {| api_key := Some k; model_name := Some m; system_prompt := Some p;
         messages := Some l; chat_session := chat_session s |}.
    destruct (negb (present (chat_session s)) || tracked_differs w k m p) eqn:Hd.
    + pose proof (script_changed_settings w r k m p l (chat_session s) Hc Hd) as E.
      cbv zeta in E. now rewrite E.
    + destruct (chat_session s) as [c|]; [|discriminate].
      cbn [present negb orb] in Hd.
      change {| api_key := Some k; model_name := Some m; system_prompt := Some p;
                messages := Some l; chat_session := Some c |}
        with (stored k m p l c).
      now rewrite (script_unchanged_settings w r k m p l c Hc Hd).
Qed.

(** ** The session manager: claims *)

(** C1, as amended.  On every run the re-initialisation block returns
    normally and rebinds exactly when the [chat_session] key is not set yet
    or a tracked field (key, model, system prompt) differs from the stored
    one.  When it rebinds, the stored fields become the incoming ones and
    the old session is dropped; with a non-empty key one creation is
    attempted, and if it succeeds the new session is stored and the
    transcript becomes empty, while if it fails, or if the key is empty (no
    attempt), the session is unset and the transcript is left as it was.
    When it does not rebind, nothing is called or shown and the session
    state, transcript included, is untouched. *)
Theorem rebinding_follows_tracked_fields (w : widgets) (r : remote)
    (k m p : string) (l : list message) (cs : option (option genai.ChatSession)) :
  let s := {| api_key := Some k; model_name := Some m; system_prompt := Some p;
              messages := Some l; chat_session := cs |} in
  let out := chat_session_initialization w r s in
  let s' := state_of out in
  result_of out = Returned tt /\
  if negb (present cs) || tracked_differs w k m p then
    api_key s' = Some (api_key_input w) /\
    model_name s' = Some (MODEL_NAME w) /\
    system_prompt s' = Some (system_prompt_input w) /\
    if truthy (api_key_input w) then
      start_chat_calls (log_of out) = 1 /\
      match start_chat_response r with
      | genai.Started h =>
          chat_session s' = Some (Some (new_session w h)) /\ messages s' = Some []
      | genai.StartRaises _ =>
          chat_session s' = Some None /\ messages s' = Some l
      end
    else
      start_chat_calls (log_of out) = 0 /\
      chat_session s' = Some None /\ messages s' = Some l
  else out = (Returned tt, s, []).
Proof.
  intros s out s'. subst s' out.
  pose proof (chat_session_initialization_run w r k m p l cs) as E.
  cbv zeta in E. fold s in E. rewrite E. clear E.
  destruct (negb (present cs) || tracked_differs w k m p).
  2:{ split; reflexivity. }
  split; [reflexivity|].
  cbn [state_of log_of fst snd]. unfold rebound.
  destruct (truthy (api_key_input w)).
  - destruct (start_chat_response r) as [h|e]; cbn; repeat split.
  - cbn [fst snd stored api_key model_name system_prompt chat_session messages].
    repeat split.
    destruct (env_api_key w) as [e|]; [destruct (truthy e)|]; reflexivity.
Qed.

(** C1, as stated, fails when a tracked field differs and no session
    comes out of it.  When the user empties the key field, no creation is
    attempted; when another model is selected and the creation fails, none
    is stored.  In both runs the transcript is not emptied. *)
Lemma changed_field_without_new_session :
  let emptied := with_key Sample.sidebar "" in
  let out := chat_session_initialization emptied Sample.service Sample.chatted in
  let other := with_model Sample.sidebar Gemini10Pro in
  let out' := chat_session_initialization other Sample.refusing Sample.chatted in
  (tracked_differs emptied "k" "gemini-1.5-flash-latest" "" = true /\
   ~ ((exists c, chat_session (state_of out) = Some (Some c)) /\
      messages (state_of out) = Some []) /\
   start_chat_calls (log_of out) = 0 /\
   chat_session (state_of out) = Some None /\
   messages (state_of out) = Some [Sample.hi; Sample.hello]) /\
  (tracked_differs other "k" "gemini-1.5-flash-latest" "" = true /\
   ~ ((exists c, chat_session (state_of out') = Some (Some c)) /\
      messages (state_of out') = Some []) /\
   start_chat_calls (log_of out') = 1 /\
   chat_session (state_of out') = Some None /\
   messages (state_of out') = Some [Sample.hi; Sample.hello]).
Proof.
  cbv zeta. split.
  - split; [reflexivity|]. split.
    + intros [_ H]. vm_compute in H. discriminate.
    + repeat split.
  - split; [reflexivity|]. split.
    + intros [_ H]. vm_compute in H. discriminate.
    + repeat split.
Qed.

(** C9, as amended.  A change of the key, the model or the system prompt
    invalidates the current session: it is replaced by the outcome of a new
    creation (a session built from the incoming settings, sampling
    parameters included) or unset.  A change of the temperature or of the
    maximum number of output tokens alone does not: with the tracked fields
    as stored, the block does nothing, whatever the sampling parameters
    are, and the session keeps the ones it was created with. *)
Theorem only_tracked_fields_invalidate_session (w : widgets) (r : remote)
    (k m p : string) (l : list message) (c : genai.ChatSession) (t n : Z) :
  let s := stored k m p l (Some c) in
  let w' := with_sampling w t n in
  let out := chat_session_initialization w' r s in
  if tracked_differs w k m p
  then chat_session (state_of out) =
         Some (if truthy (api_key_input w) then
                 match start_chat_response r with
                 | genai.Started h => Some (new_session w' h)
                 | genai.StartRaises _ => None
                 end
               else None)
  else out = (Returned tt, s, []).
Proof.
  intros s w' out. subst out.
  pose proof (chat_session_initialization_run w' r k m p l (Some (Some c))) as E.
  cbv zeta in E. change (chat_session_initialization w' r s =
    if negb (present (Some (Some c))) || tracked_differs w k m p
    then (Returned tt, fst (rebound w' r l), snd (rebound w' r l))
    else (Returned tt, s, [])) in E.
  rewrite E. cbn [present negb orb].
  destruct (tracked_differs w k m p); [|reflexivity].
  cbn [state_of fst snd]. now rewrite rebound_state.
Qed.

(** C9, as stated, fails for the sampling parameters: after the
    temperature and the token limit are changed, a run neither creates a
    session nor touches the stored one, which still carries the old
    parameters. *)
Lemma sampling_change_keeps_session :
  let w := with_sampling Sample.sidebar 20 100 in
  let out := script w Sample.service Sample.chatted in
  temperature w <> temperature Sample.sidebar /\
  max_tokens w <> max_tokens Sample.sidebar /\
  start_chat_calls (log_of out) = 0 /\
  chat_session (state_of out) = Some (Some Sample.session) /\
  genai.generation Sample.session =
    {| genai.temperature := 70; genai.max_output_tokens := 2048 |}.
Proof.
  cbv zeta. split; [discriminate|]. split; [discriminate|]. repeat split.
Qed.

(** C3, as amended.  In every reachable state a live session is one
    created from the stored configuration (key, model, system prompt), with
    a non-empty key.  When a run (clear button not clicked) finds a tracked
    field changed, session and transcript are reset together if the
    creation succeeds: the new session is stored and the transcript holds
    nothing but what this run exchanged with it.  If the creation fails, or
    the key is empty, the session is unset and the transcript is left as it
    was. *)
Theorem session_reset_on_configuration_change (s : session_state) :
  reachable s ->
  session_matches_configuration s /\
  forall (w : widgets) (r : remote) (k m p : string) (l : list message)
         (c : option genai.ChatSession),
    s = stored k m p l c ->
    clear_chat_history w = false ->
    tracked_differs w k m p = true ->
    step w r s =
    if truthy (api_key_input w) then
      match start_chat_response r with
      | genai.Started h =>
          stored (api_key_input w) (MODEL_NAME w) (system_prompt_input w)
            (exchanged w r (api_key_input w) (Some (new_session w h)))
            (Some (new_session w h))
      | genai.StartRaises _ =>
          stored (api_key_input w) (MODEL_NAME w) (system_prompt_input w) l None
      end
    else stored (api_key_input w) (MODEL_NAME w) (system_prompt_input w) l None.
Proof.
  intros H. split; [now apply reachable_session_matches_configuration|].
  intros w r k m p l c -> Hc Hd. unfold step.
  pose proof (script_changed_settings w r k m p l (Some c) Hc) as E.
  cbv zeta in E. rewrite Hd in E. specialize (E eq_refl).
  change {| api_key := Some k; model_name := Some m; system_prompt := Some p;
            messages := Some l; chat_session := Some c |}
    with (stored k m p l c) in E.
  rewrite E. cbn [state_of fst snd].
  unfold rebound_messages, rebound_session.
  destruct (truthy (api_key_input w)).
  - destruct (start_chat_response r) as [h|e].
    + reflexivity.
    + now rewrite exchanged_without_session, app_nil_r.
  - now rewrite exchanged_without_session, app_nil_r.
Qed.

Lemma session_reset_on_configuration_change_witness :
  session_matches_configuration Sample.chatted /\
  step (with_key Sample.sidebar "k2") Sample.service Sample.chatted =
    stored "k2" "gemini-1.5-flash-latest" "" [] (Some (new_session (with_key Sample.sidebar "k2") 1)) /\
  step (with_key Sample.sidebar "k2") Sample.refusing Sample.chatted =
    stored "k2" "gemini-1.5-flash-latest" "" [Sample.hi; Sample.hello] None.
Proof.
  destruct (session_reset_on_configuration_change Sample.chatted
              chatted_reachable) as [Hinv Hstep].
  split; [exact Hinv|]. split.
  - exact (Hstep (with_key Sample.sidebar "k2") Sample.service
             "k" "gemini-1.5-flash-latest" "" [Sample.hi; Sample.hello]
             (Some Sample.session) eq_refl eq_refl eq_refl).
  - exact (Hstep (with_key Sample.sidebar "k2") Sample.refusing
             "k" "gemini-1.5-flash-latest" "" [Sample.hi; Sample.hello]
             (Some Sample.session) eq_refl eq_refl eq_refl).
Defined.

(** C3, as stated, fails when the creation of the session fails after a
    change of the key: the state reached has no live session, and its
    transcript is not cleared but still holds the exchange made under the
    old configuration. *)
Lemma failed_creation_keeps_transcript :
  let s := step (with_key Sample.sidebar "k2") Sample.refusing Sample.chatted in
  reachable s /\
  chat_session s = Some None /\
  api_key s = Some "k2" /\
  messages s = Some [Sample.hi; Sample.hello] /\
  messages s <> Some [].
Proof.
  cbv zeta. split; [apply reachable_step, chatted_reachable|].
  repeat split. discriminate.
Qed.

(** C5, at the failing input: after an exchange the user clicks "Clear Chat
    History" and, with the configuration unchanged, sends a message.  The
    click empties the transcript and unsets the session; the rerun it
    triggers and the run of the send create no session, the send is
    refused with the "not initialized" error and the transcript stays
    empty. *)
Lemma clear_then_send_finds_no_session :
  let clicked := script (interaction Sample.sidebar true None) Sample.service
                   Sample.chatted in
  let rerun := script Sample.sidebar Sample.service (state_of clicked) in
  let send := script (interaction Sample.sidebar false (Some "hi")) Sample.service
                (state_of rerun) in
  result_of clicked = Rerun /\
  state_of clicked = stored "k" "gemini-1.5-flash-latest" "" [] None /\
  state_of rerun = state_of clicked /\
  start_chat_calls (log_of rerun) = 0 /\
  state_of send = state_of clicked /\
  start_chat_calls (log_of send) = 0 /\
  send_message_calls (log_of send) = 0 /\
  log_of send =
    [st_error "⚠️ Chat session not initialized. Please check your API key and configuration in the sidebar."].
Proof. cbv zeta. repeat split. Qed.

(** * Further properties of the script *)

(** ** Session creation *)

(** X1.  [initialize_chat_session] never raises and never assigns to the
    session state, whatever the client does: it makes one creation call;
    when the client raises, it shows the error with its description and
    returns [None]; when the client answers, it returns a chat built from
    the arguments, an empty system instruction being passed as none. *)
Theorem initialize_chat_session_contract (r : remote) (key model : string)
    (instruction : option string) (safety : list genai.safety_setting)
    (gen : genai.generation_config) (s : session_state) :
  let out := initialize_chat_session r key model instruction safety gen s in
  let passed := match instruction with
                | Some "" | None => None
                | Some text => Some text
                end in
  state_of out = s /\
  creations (log_of out) = [call_start_chat key model passed safety gen] /\
  match start_chat_response r with
  | genai.Started h =>
      result_of out =
        Returned (Some {| genai.handle := h; genai.api_key := key;
                          genai.model_name := model;
                          genai.safety_settings := safety;
                          genai.generation := gen;
                          genai.system_instruction := passed |}) /\
      errors (log_of out) = []
  | genai.StartRaises e =>
      result_of out = Returned None /\
      errors (log_of out) = ["Error initializing Gemini model: " ++ genai.str e]%string
  end.
Proof.
  intros out passed. subst out.
  assert (E : match instruction with
              | Some text => if truthy text then Some text else None
              | None => None
              end = passed).
  { subst passed. destruct instruction as [[|a t]|]; reflexivity. }
  unfold initialize_chat_session. rewrite E.
  unfold try_except, bind, emit, raise, ret.
  destruct (start_chat_response r) as [h|e].
  - repeat split.
  - cbn [select_clause]. unfold genai.isinstance. repeat split.
Qed.

(** ** Session state initialisation and the history display *)

(** X2.  The initialisation of lines 92-103 assigns only the keys that
    are not set: afterwards the four keys are set, a key that was set
    keeps its value, a key that was not takes the widget value (the empty
    list for [messages]), [chat_session] is left as it was and nothing is
    shown.  Run again with any other widget values it changes nothing. *)
Theorem session_state_initialization_fills_unset_keys (w w' : widgets)
    (s : session_state) :
  let out := session_state_initialization w s in
  let s1 := state_of out in
  result_of out = Returned tt /\ log_of out = [] /\
  api_key s1 =
    Some (match api_key s with Some k => k | None => api_key_input w end) /\
  model_name s1 =
    Some (match model_name s with Some m => m | None => MODEL_NAME w end) /\
  system_prompt s1 =
    Some (match system_prompt s with
          | Some p => p | None => system_prompt_input w end) /\
  messages s1 = Some (match messages s with Some l => l | None => [] end) /\
  chat_session s1 = chat_session s /\
  session_state_initialization w' s1 = (Returned tt, s1, []).
Proof.
  cbv zeta. rewrite session_state_initialization_run.
  cbn [state_of result_of log_of fst snd]. repeat split.
Qed.

Lemma rendered_history (l : list message) : rendered (history l) = l.
Proof.
  induction l as [|[name body] l IH]; [reflexivity|].
  cbn [history role content]. cbn [rendered].
  destruct l as [|x l']; [reflexivity|].
  cbn [history] in *. cbn [rendered] in *. now rewrite IH.
Qed.

(** X3.  The history display shows the transcript and nothing else: read
    back from what is shown, container by container, the messages are the
    transcript in order; two calls are made per message and the session
    state is not assigned. *)
Theorem history_display_renders_transcript (k m p : string) (l : list message)
    (c : option genai.ChatSession) :
  let out := display_chat_history (stored k m p l c) in
  result_of out = Returned tt /\
  state_of out = stored k m p l c /\
  rendered (log_of out) = l /\
  length (log_of out) = 2 * length l.
Proof.
  cbv zeta. rewrite display_chat_history_run.
  cbn [state_of result_of log_of fst snd]. repeat split.
  - apply rendered_history.
  - induction l as [|x l IH]; [reflexivity|].
    cbn [history length]. rewrite IH. cbn [Nat.mul Nat.add].
    now rewrite <- plus_n_Sm.
Qed.

(** ** Whole runs *)

(** X4.  No exception escapes a run of the script, from any session state
    whatever keys it lacks: no part of the script reads a key of
    [st.session_state] before it is assigned.  A run ends at [st.rerun()]
    when the clear button is clicked and normally otherwise. *)
Theorem run_never_raises (w : widgets) (r : remote) (s : session_state) :
  (forall e, result_of (script w r s) <> Raised e) /\
  result_of (script w r s) = (if clear_chat_history w then Rerun else Returned tt).
Proof.
  rewrite script_returns_or_reruns.
  split; [|reflexivity]. intros e. now destruct (clear_chat_history w).
Qed.

(** X5.  A run in which "Clear Chat History" is clicked does nothing but
    clear: it ends at [st.rerun()] having shown nothing and called nothing,
    whatever the chat input and the other widget values are; the
    transcript is empty, the session is [None], and the stored key, model
    and system prompt are as before (the widget values are not taken
    over).  Clicking again changes nothing more. *)
Theorem clear_run_only_clears (w : widgets) (r : remote) (s : session_state) :
  clear_chat_history w = true ->
  let out := script w r s in
  result_of out = Rerun /\
  log_of out = [st_rerun] /\
  messages (state_of out) = Some [] /\
  chat_session (state_of out) = Some None /\
  api_key (state_of out) = api_key s /\
  model_name (state_of out) = model_name s /\
  system_prompt (state_of out) = system_prompt s /\
  state_of (script w r (state_of out)) = state_of out.
Proof.
  intros H. cbv zeta. rewrite !(script_clear w r _ H).
  cbn [state_of result_of log_of fst snd]. repeat split.
Qed.

Lemma clear_run_only_clears_witness :
  let w := interaction (with_key Sample.sidebar "k2") true (Some "hi") in
  let out := script w Sample.service Sample.chatted in
  result_of out = Rerun /\
  log_of out = [st_rerun] /\
  messages (state_of out) = Some [] /\
  chat_session (state_of out) = Some None /\
  api_key (state_of out) = Some "k" /\
  model_name (state_of out) = Some "gemini-1.5-flash-latest" /\
  system_prompt (state_of out) = Some "" /\
  state_of (script w Sample.service (state_of out)) = state_of out.
Proof.
  exact (clear_run_only_clears
           (interaction (with_key Sample.sidebar "k2") true (Some "hi"))
           Sample.service Sample.chatted eq_refl).
Defined.

(** A run without chat input, or with an empty one, leaves the handler
    with nothing to do. *)
Lemma handle_user_input_idle (w : widgets) (r : remote) (s : session_state) :
  user_prompt w = None \/ user_prompt w = Some "" ->
  handle_user_input w r s = (Returned tt, s, []).
Proof. intros [H|H]; unfold handle_user_input; now rewrite H. Qed.

Lemma exchanged_idle (w : widgets) (r : remote) (k : string)
    (c : option genai.ChatSession) :
  user_prompt w = None \/ user_prompt w = Some "" -> exchanged w r k c = [].
Proof. intros [H|H]; unfold exchanged; rewrite H; [reflexivity | now destruct c]. Qed.

(** X6.  A rerun that brings nothing new is a no-op: with the button not
    clicked, the tracked settings as stored and no chat input (or an empty
    one), the run leaves the session state exactly as it was, session
    object included, calls nothing and only shows the history again. *)
Theorem idle_rerun_changes_nothing (w : widgets) (r : remote) (k m p : string)
    (l : list message) (c : option genai.ChatSession) :
  clear_chat_history w = false ->
  tracked_differs w k m p = false ->
  user_prompt w = None \/ user_prompt w = Some "" ->
  script w r (stored k m p l c) = (Returned tt, stored k m p l c, history l).
Proof.
  intros Hc Hd Hu. rewrite (script_unchanged_settings w r k m p l c Hc Hd).
  rewrite (exchanged_idle w r k c Hu), (handle_user_input_idle w r _ Hu).
  cbn [log_of snd]. now rewrite !app_nil_r.
Qed.

Lemma idle_rerun_changes_nothing_witness :
  script (with_sampling Sample.sidebar 20 100) Sample.refusing Sample.chatted =
  (Returned tt, Sample.chatted,
   [st_chat_message "user"; st_markdown "hi";
    st_chat_message "assistant"; st_markdown "Hello there"]).
Proof.
  exact (idle_rerun_changes_nothing (with_sampling Sample.sidebar 20 100)
           Sample.refusing "k" "gemini-1.5-flash-latest" ""
           [Sample.hi; Sample.hello] (Some Sample.session)
           eq_refl eq_refl (or_introl eq_refl)).
Defined.

Lemma exchanged_cases (w : widgets) (r : remote) (k : string)
    (c : option genai.ChatSession) :
  exchanged w r k c = [] \/
  exists u a, user_prompt w = Some u /\
    exchanged w r k c = [ {| role := "user"; content := u |};
                          {| role := "assistant"; content := a |} ].
Proof.
  unfold exchanged. destruct (user_prompt w) as [u|]; [|now left].
  destruct c as [c|]; [|now left].
  destruct (truthy u && truthy k); [|now left].
  right. eexists. eexists. split; reflexivity.
Qed.

(** X7.  A run with the button not clicked and the tracked settings as
    stored never removes, reorders or rewrites a message: the transcript
    it leaves is the earlier one followed by nothing, or by the message of
    the chat input and one assistant message; key, model, system prompt
    and session stay as stored. *)
Theorem unchanged_settings_run_only_appends (w : widgets) (r : remote)
    (k m p : string) (l : list message) (c : option genai.ChatSession) :
  clear_chat_history w = false ->
  tracked_differs w k m p = false ->
  exists tail,
    state_of (script w r (stored k m p l c)) = stored k m p (l ++ tail) c /\
    (tail = [] \/
     exists u a, user_prompt w = Some u /\
       tail = [ {| role := "user"; content := u |};
                {| role := "assistant"; content := a |} ]).
Proof.
  intros Hc Hd. rewrite (script_unchanged_settings w r k m p l c Hc Hd).
  exists (exchanged w r k c). split; [reflexivity|]. apply exchanged_cases.
Qed.

Lemma unchanged_settings_run_only_appends_witness :
  exists tail,
    state_of (script (interaction Sample.sidebar false (Some "again"))
                Sample.service Sample.chatted)
    = stored "k" "gemini-1.5-flash-latest" "" ([Sample.hi; Sample.hello] ++ tail)
        (Some Sample.session) /\
    (tail = [] \/
     exists u a, Some "again" = Some u /\
       tail = [ {| role := "user"; content := u |};
                {| role := "assistant"; content := a |} ]).
Proof.
  exact (unchanged_settings_run_only_appends
           (interaction Sample.sidebar false (Some "again")) Sample.service
           "k" "gemini-1.5-flash-latest" "" [Sample.hi; Sample.hello]
           (Some Sample.session) eq_refl eq_refl).
Defined.

(** X8.  While the tracked settings stay as stored and the button is not
    clicked, an unset session is never recreated: after any sequence of
    such runs, chat inputs included and whatever the service would answer,
    the session state is the same, and none of the runs attempts a
    creation or sends a message. *)
Theorem unset_session_is_never_retried (k m p : string) (l : list message)
    (runs : list (widgets * remote)) :
  Forall (keeps_settings k m p) runs ->
  run_all runs (stored k m p l None) = stored k m p l None /\
  Forall (fun run =>
            let out := script (fst run) (snd run) (stored k m p l None) in
            start_chat_calls (log_of out) = 0 /\
            send_message_calls (log_of out) = 0) runs.
Proof.
  induction 1 as [|[w r] runs [Hc Hd] _ [IH1 IH2]]; [now split|].
  cbn [fst snd] in Hc, Hd.
  destruct (unset_session_is_not_recreated w r k m p l Hc Hd) as (_ & Hs & H1 & H2).
  split.
  - cbn [run_all]. unfold step. now rewrite Hs.
  - constructor; [now split | exact IH2].
Qed.

Lemma unset_session_is_never_retried_witness :
  let unset := step (with_key Sample.sidebar "k2") Sample.refusing Sample.chatted in
  let runs := [ (with_key Sample.sidebar "k2", Sample.service);
                (interaction (with_key Sample.sidebar "k2") false (Some "hi"),
                 Sample.service) ] in
  chat_session unset = Some None /\
  run_all runs unset = unset.
Proof.
  split; [reflexivity|].
  refine (proj1 (unset_session_is_never_retried
                   "k2" "gemini-1.5-flash-latest" "" [Sample.hi; Sample.hello]
                   [ (with_key Sample.sidebar "k2", Sample.service);
                     (interaction (with_key Sample.sidebar "k2") false (Some "hi"),
                      Sample.service) ] _)).
  repeat (constructor; [split; reflexivity|]). constructor.
Defined.

(** ** Invariants of the reachable states *)

(** What a run makes of a settled state: the cleared state, or a state
    with every key set whose transcript is the earlier one, or the empty
    one, followed by what the run exchanged, and whose session is the
    earlier one or the outcome of this run's creation. *)
Lemma step_shape (w : widgets) (r : remote) (s : session_state) :
  settled s ->
  (clear_chat_history w = true /\ step w r s = cleared s) \/
  exists k m p l0 c,
    step w r s = stored k m p (l0 ++ exchanged w r k c) c /\
    (l0 = [] \/ messages s = Some l0) /\
    (c = rebound_session w r \/ chat_session s = Some c).
Proof.
  intros H. unfold step. destruct (clear_chat_history w) eqn:Hc.
  - left. split; [reflexivity|]. now rewrite (script_clear w r s Hc).
  - right.
    assert (Hm : forall l, rebound_messages w r l = [] \/ rebound_messages w r l = l).
    { intros l. unfold rebound_messages. destruct (rebound_session w r); auto. }
    destruct H as [->|[->|(k & m & p & l & c & -> & _)]].
    + rewrite (script_defaults w r _ Hc).
      pose proof (script_changed_settings w r (api_key_input w) (MODEL_NAME w)
                    (system_prompt_input w) [] None Hc eq_refl) as E.
      cbv zeta in E. change (defaults w empty_session_state) with
        {| api_key := Some (api_key_input w); model_name := Some (MODEL_NAME w);
           system_prompt := Some (system_prompt_input w); messages := Some [];
           chat_session := None |}.
      rewrite E. cbn [state_of fst snd].
      do 5 eexists. split; [reflexivity|]. split; [|now left].
      left. now destruct (Hm []).
    + rewrite (script_defaults w r _ Hc).
      change (defaults w (cleared empty_session_state)) with
        (stored (api_key_input w) (MODEL_NAME w) (system_prompt_input w) [] None).
      rewrite (script_unchanged_settings w r _ _ _ _ _ Hc (tracked_differs_same w)).
      cbn [state_of fst snd].
      do 5 eexists. split; [reflexivity|]. split; [now left | now right].
    + destruct (tracked_differs w k m p) eqn:Hd.
      * pose proof (script_changed_settings w r k m p l (Some c) Hc) as E.
        cbv zeta in E. rewrite Hd in E. specialize (E eq_refl).
        change {| api_key := Some k; model_name := Some m; system_prompt := Some p;
                  messages := Some l; chat_session := Some c |}
          with (stored k m p l c) in E.
        rewrite E. cbn [state_of fst snd].
        do 5 eexists. split; [reflexivity|]. split; [|now left].
        destruct (Hm l) as [->| ->]; [now left | now right].
      * rewrite (script_unchanged_settings w r k m p l c Hc Hd).
        cbn [state_of fst snd].
        do 5 eexists. split; [reflexivity|]. split; now right.
Qed.

Lemma exchanges_app (ps qs : list (string * string)) :
  exchanges (ps ++ qs) = (exchanges ps ++ exchanges qs)%list.
Proof.
  induction ps as [|[u a] ps IH]; [reflexivity|].
  cbn [app exchanges]. now rewrite IH.
Qed.

(** X9.  In every reachable state the transcript is a sequence of
    exchanges: user and assistant messages alternate, starting with a user
    message and ending with an assistant message; no run leaves a user
    message unanswered or records an assistant message on its own. *)
Theorem transcript_is_a_sequence_of_exchanges (s : session_state) :
  reachable s ->
  forall l, messages s = Some l -> exists pairs, l = exchanges pairs.
Proof.
  induction 1 as [|w r s Hr IH].
  - discriminate.
  - intros l Hl.
    destruct (step_shape w r s (reachable_settled s Hr))
      as [[_ E]|(k & m & p & l0 & c & E & Hl0 & _)]; rewrite E in Hl.
    + cbn [messages cleared] in Hl. injection Hl as <-. now exists [].
    + cbn [messages stored] in Hl. injection Hl as <-.
      assert (H0 : exists pairs, l0 = exchanges pairs).
      { destruct Hl0 as [->|Hl0]; [now exists [] | now apply IH]. }
      destruct H0 as [pairs ->].
      destruct (exchanged_cases w r k c) as [->|(u & a & _ & ->)].
      * exists pairs. now rewrite app_nil_r.
      * exists (pairs ++ [(u, a)])%list. now rewrite exchanges_app.
Qed.

Lemma transcript_is_a_sequence_of_exchanges_witness :
  exists pairs, [Sample.hi; Sample.hello] = exchanges pairs.
Proof.
  exact (transcript_is_a_sequence_of_exchanges Sample.chatted chatted_reachable
           [Sample.hi; Sample.hello] eq_refl).
Defined.

(** X10.  In every reachable state a live session carries the four fixed
    safety settings of the script, each with the threshold
    [BLOCK_MEDIUM_AND_ABOVE]: no widget value and no earlier state can
    change them. *)
Theorem live_session_has_fixed_safety_settings (s : session_state) :
  reachable s ->
  forall c, chat_session s = Some (Some c) ->
  genai.safety_settings c = safety_settings /\
  map genai.category (genai.safety_settings c) =
    ["HARM_CATEGORY_HARASSMENT"; "HARM_CATEGORY_HATE_SPEECH";
     "HARM_CATEGORY_SEXUALLY_EXPLICIT"; "HARM_CATEGORY_DANGEROUS_CONTENT"] /\
  Forall (fun x => genai.threshold x = "BLOCK_MEDIUM_AND_ABOVE")
    (genai.safety_settings c).
Proof.
  intros Hr c Hc.
  assert (E : genai.safety_settings c = safety_settings).
  { revert c Hc. induction Hr as [|w r s Hr IH]; intros c Hc; [discriminate|].
    destruct (step_shape w r s (reachable_settled s Hr))
      as [[_ E]|(k & m & p & l0 & c0 & E & _ & Hc0)]; rewrite E in Hc.
    - discriminate.
    - cbn [chat_session stored] in Hc. injection Hc as ->.
      destruct Hc0 as [Hc0|Hc0]; [|now apply IH].
      unfold rebound_session in Hc0.
      destruct (truthy (api_key_input w)); [|discriminate].
      destruct (start_chat_response r); [|discriminate].
      injection Hc0 as ->. reflexivity. }
  rewrite E. split; [reflexivity|]. split; [reflexivity|].
  repeat constructor.
Qed.

Lemma live_session_has_fixed_safety_settings_witness :
  genai.safety_settings Sample.session = safety_settings /\
  map genai.category (genai.safety_settings Sample.session) =
    ["HARM_CATEGORY_HARASSMENT"; "HARM_CATEGORY_HATE_SPEECH";
     "HARM_CATEGORY_SEXUALLY_EXPLICIT"; "HARM_CATEGORY_DANGEROUS_CONTENT"] /\
  Forall (fun x => genai.threshold x = "BLOCK_MEDIUM_AND_ABOVE")
    (genai.safety_settings Sample.session).
Proof.
  exact (live_session_has_fixed_safety_settings Sample.chatted chatted_reachable
           Sample.session eq_refl).
Defined.

(** ** The exchange, further *)

Lemma placeholder_bodies_prelude (c : genai.ChatSession) (u : string)
    (more : list event) :
  placeholder_bodies (prelude c u ++ more) = placeholder_bodies more.
Proof. reflexivity. Qed.

Lemma errors_cursor (ps : list string) (more : list event) :
  errors (map (fun q => placeholder_markdown (q ++ "▌")) ps ++ more) = errors more.
Proof. induction ps as [|q ps IH]; [reflexivity | exact IH]. Qed.

Lemma sent_cursor (ps : list string) (more : list event) :
  sent (map (fun q => placeholder_markdown (q ++ "▌")) ps ++ more) = sent more.
Proof. induction ps as [|q ps IH]; [reflexivity | exact IH]. Qed.

Lemma creations_cursor (ps : list string) (more : list event) :
  creations (map (fun q => placeholder_markdown (q ++ "▌")) ps ++ more)
  = creations more.
Proof. induction ps as [|q ps IH]; [reflexivity | exact IH]. Qed.

(** X11.  When the remote call raises after the text fragments [fs], the
    text received so far is shown while it arrives but not recorded: the
    assistant message holds only the fixed text of the clause that matches
    the class of the exception, with [str(e)] in it, the same whatever
    [fs] is; one error is shown, and the placeholder is never given the
    final text without the cursor.  The two named classes get their own
    texts: the general clause, last in order, does not shadow them. *)
Theorem failure_discards_partial_reply (w : widgets) (r : remote)
    (k m p u : string) (l : list message) (c : genai.ChatSession)
    (fs : list string) (e : genai.exn) :
  truthy k = true -> user_prompt w = Some u -> truthy u = true ->
  send_message_response r = fragments fs (genai.Raise e) ->
  let out := handle_user_input w r (stored k m p l (Some c)) in
  state_of out =
    stored k m p
      (l ++ [ {| role := "user"; content := u |};
              {| role := "assistant";
                 content :=
                   match genai.exn_type e with
                   | genai.BlockedPromptException =>
                       "I'm sorry, I can't respond to that due to safety guidelines. (Blocked Prompt: "
                       ++ genai.str e ++ ")"
                   | genai.StopCandidateException =>
                       "My apologies, my response was cut short. (Stop Candidate: "
                       ++ genai.str e ++ ")"
                   | genai.Exception =>
                       "Sorry, an unexpected error occurred: " ++ genai.str e
                   end |} ]) (Some c) /\
  errors (log_of out) =
    [ match genai.exn_type e with
      | genai.BlockedPromptException =>
          "⚠️ Your input was blocked by the safety filters: " ++ genai.str e
      | genai.StopCandidateException =>
          "⚠️ My response was stopped before completion: " ++ genai.str e
      | genai.Exception => "An error occurred: " ++ genai.str e
      end ]%string /\
  placeholder_bodies (log_of out) = map (fun q => (q ++ "▌")%string) (prefixes fs).
Proof.
  intros Hk Hu Ht Hr out. subst out.
  rewrite (handle_user_input_exchange w r k m p u l c Hk Hu Ht).
  rewrite Hr. change (genai.Raise e) with (ending_stream (Failed e)).
  rewrite leading_of_fragments.
  cbn [fst snd reply closing result_of state_of log_of].
  split; [reflexivity|]. split.
  - unfold prelude. cbn [app errors]. rewrite errors_cursor. reflexivity.
  - rewrite placeholder_bodies_prelude, placeholder_bodies_app,
      placeholder_bodies_cursor, partials_prefixes.
    cbn [placeholder_bodies]. now rewrite app_nil_r.
Qed.

Lemma failure_discards_partial_reply_witness :
  let r := {| start_chat_response := genai.Started 1;
              send_message_response :=
                fragments ["Hel"; "lo"]
                  (genai.Raise {| genai.exn_type := genai.StopCandidateException;
                                  genai.str := "MAX_TOKENS" |}) |} in
  let out := handle_user_input (interaction Sample.sidebar false (Some "hi"))
               r Sample.opened in
  messages (state_of out) =
    Some [ Sample.hi;
           {| role := "assistant";
              content := "My apologies, my response was cut short. (Stop Candidate: MAX_TOKENS)" |} ] /\
  errors (log_of out) = ["⚠️ My response was stopped before completion: MAX_TOKENS"] /\
  placeholder_bodies (log_of out) = ["Hel▌"; "Hello▌"].
Proof.
  cbv zeta.
  pose proof (failure_discards_partial_reply
                (interaction Sample.sidebar false (Some "hi"))
                {| start_chat_response := genai.Started 1;
                   send_message_response :=
                     fragments ["Hel"; "lo"]
                       (genai.Raise {| genai.exn_type := genai.StopCandidateException;
                                       genai.str := "MAX_TOKENS" |}) |}
                "k" "gemini-1.5-flash-latest" "" "hi" [] Sample.session
                ["Hel"; "lo"]
                {| genai.exn_type := genai.StopCandidateException;
                   genai.str := "MAX_TOKENS" |}
                eq_refl eq_refl eq_refl eq_refl) as [H1 [H2 H3]].
  exact (conj (f_equal messages H1) (conj H2 H3)).
Defined.

(** X12.  An exchange whose preconditions pass calls the remote service
    once, whatever it answers: [send_message] on the stored session with
    the text of the chat input and nothing of the transcript; it creates
    no session, and it leaves key, model, system prompt and session as
    stored. *)
Theorem exchange_sends_the_input_once (w : widgets) (r : remote)
    (k m p u : string) (l : list message) (c : genai.ChatSession) :
  truthy k = true -> user_prompt w = Some u -> truthy u = true ->
  let out := handle_user_input w r (stored k m p l (Some c)) in
  sent (log_of out) = [(c, u)] /\
  creations (log_of out) = [] /\
  api_key (state_of out) = Some k /\
  model_name (state_of out) = Some m /\
  system_prompt (state_of out) = Some p /\
  chat_session (state_of out) = Some (Some c).
Proof.
  intros Hk Hu Ht out. subst out.
  rewrite (handle_user_input_exchange w r k m p u l c Hk Hu Ht).
  cbn [state_of log_of fst snd api_key model_name system_prompt chat_session stored].
  unfold prelude. cbn [app sent creations].
  rewrite sent_cursor, creations_cursor.
  destruct (snd (leading (send_message_response r))); repeat split.
Qed.

Lemma exchange_sends_the_input_once_witness :
  let out := handle_user_input (interaction Sample.sidebar false (Some "again"))
               Sample.service Sample.chatted in
  sent (log_of out) = [(Sample.session, "again")] /\
  creations (log_of out) = [] /\
  api_key (state_of out) = Some "k" /\
  model_name (state_of out) = Some "gemini-1.5-flash-latest" /\
  system_prompt (state_of out) = Some "" /\
  chat_session (state_of out) = Some (Some Sample.session).
Proof.
  exact (exchange_sends_the_input_once
           (interaction Sample.sidebar false (Some "again")) Sample.service
           "k" "gemini-1.5-flash-latest" "" "again" [Sample.hi; Sample.hello]
           Sample.session eq_refl eq_refl eq_refl).
Defined.

(** X13.  What an exchange records does not depend on how the service
    cuts the text into chunks: two responses whose text fragments
    concatenate to the same string and that end the same way (exhausted,
    at a chunk without text, or by an exception) leave the same session
    state; only the placeholder updates shown on the way differ. *)
Theorem recorded_reply_ignores_chunking (w : widgets) (r r' : remote)
    (k m p u : string) (l : list message) (c : genai.ChatSession)
    (fs fs' : list string) (x : ending) :
  truthy k = true -> user_prompt w = Some u -> truthy u = true ->
  send_message_response r = fragments fs (ending_stream x) ->
  send_message_response r' = fragments fs' (ending_stream x) ->
  join fs = join fs' ->
  state_of (handle_user_input w r (stored k m p l (Some c))) =
  state_of (handle_user_input w r' (stored k m p l (Some c))).
Proof.
  intros Hk Hu Ht Hr Hr' Hj.
  rewrite !(handle_user_input_exchange w _ k m p u l c Hk Hu Ht).
  rewrite Hr, Hr', !leading_of_fragments. cbn [state_of fst snd].
  destruct x; cbn [reply]; now rewrite ?Hj.
Qed.

Lemma recorded_reply_ignores_chunking_witness :
  state_of (handle_user_input (interaction Sample.sidebar false (Some "hi"))
              Sample.service Sample.opened) =
  state_of (handle_user_input (interaction Sample.sidebar false (Some "hi"))
              {| start_chat_response := genai.Started 1;
                 send_message_response := Sample.text_stream ["Hello"; ""; " there"] |}
              Sample.opened).
Proof.
  exact (recorded_reply_ignores_chunking
           (interaction Sample.sidebar false (Some "hi")) Sample.service
           {| start_chat_response := genai.Started 1;
              send_message_response := Sample.text_stream ["Hello"; ""; " there"] |}
           "k" "gemini-1.5-flash-latest" "" "hi" [] Sample.session
           ["Hel"; "lo"; " there"] ["Hello"; ""; " there"] Completed
           eq_refl eq_refl eq_refl eq_refl eq_refl eq_refl).
Defined.

(** ** The session manager, further *)

(** Stripping on the left leaves nothing of a blank string, and of any
    other string something that does not start with whitespace. *)
Lemma lstrip_cases (n : nat) (s : string) :
  String.length s <= n ->
  (blank s = true /\ lstrip s = "") \/
  (blank s = false /\ lstrip s <> "" /\ starts_with_space (lstrip s) = false).
Proof.
  revert s. induction n as [|n IH]; intros s Hn.
  - destruct s; [now left | inversion Hn].
  - destruct s as [|a rest]; [now left|].
    cbn [blank lstrip]. destruct (isspace (String a "")) eqn:H1.
    { apply IH. cbn [String.length] in Hn. lia. }
    destruct rest as [|b rest2].
    { right. repeat split; [discriminate|]. cbn [starts_with_space].
      now rewrite H1. }
    destruct (isspace (String a (String b ""))) eqn:H2.
    { apply IH. cbn [String.length] in Hn. lia. }
    destruct rest2 as [|c rest3].
    { right. repeat split; [discriminate|]. cbn [starts_with_space].
      now rewrite H1, H2. }
    destruct (isspace (String a (String b (String c "")))) eqn:H3.
    { cbn [andb]. apply IH. cbn [String.length] in Hn. lia. }
    right. repeat split; [discriminate|]. cbn [starts_with_space].
    now rewrite H1, H2, H3.
Qed.

Lemma rstrip_prefix (s : string) : exists t, s = (rstrip s ++ t)%string.
Proof.
  induction s as [|c rest [t IH]]; [now exists ""|].
  cbn [rstrip]. destruct (isspace (String c (rstrip rest))).
  - now exists (String c rest).
  - exists t. cbn [append]. now rewrite <- IH.
Qed.

(** Stripping on the right leaves something of a string that does not
    start with whitespace. *)
Lemma rstrip_nonempty (s : string) :
  s <> "" -> starts_with_space s = false -> rstrip s <> "".
Proof.
  destruct s as [|a t]; [intros H; now elim H|]. intros _ Hs.
  cbn [rstrip]. destruct (isspace (String a (rstrip t))) eqn:H; [|discriminate].
  exfalso. destruct (rstrip_prefix t) as [u E].
  destruct (rstrip t) as [|b [|c [|d k]]].
  - cbn [starts_with_space] in Hs. now rewrite H in Hs.
  - cbn [append] in E. subst t. cbn [starts_with_space] in Hs.
    rewrite H in Hs. now rewrite orb_true_r in Hs.
  - cbn [append] in E. subst t. cbn [starts_with_space] in Hs.
    rewrite H in Hs. now rewrite !orb_true_r in Hs.
  - discriminate H.
Qed.

(** [s.strip()] is empty exactly for a string of whitespace. *)
Lemma truthy_strip (s : string) : truthy (strip s) = negb (blank s).
Proof.
  unfold strip.
  destruct (lstrip_cases (String.length s) s (le_n _)) as [[-> ->]|(-> & Hn & Hs)].
  - reflexivity.
  - pose proof (rstrip_nonempty _ Hn Hs) as H.
    destruct (rstrip (lstrip s)); [now elim H | reflexivity].
Qed.

(** X14.  When the block rebinds with a non-empty key and the creation
    succeeds, a system prompt of whitespace only (or empty) reaches the
    model as no instruction at all, and any other prompt reaches it
    exactly as typed, surrounding whitespace included; the prompt stored
    for the next comparison is the typed one in both cases.  Whitespace is
    what [str.strip()] removes, non-ASCII characters such as U+00A0 and
    U+3000 included. *)
Theorem blank_system_prompt_is_no_instruction (w : widgets) (r : remote)
    (k m p : string) (l : list message) (cs : option (option genai.ChatSession))
    (h : nat) :
  negb (present cs) || tracked_differs w k m p = true ->
  truthy (api_key_input w) = true ->
  start_chat_response r = genai.Started h ->
  let out := chat_session_initialization w r
               {| api_key := Some k; model_name := Some m; system_prompt := Some p;
                  messages := Some l; chat_session := cs |} in
  let passed := if blank (system_prompt_input w) then None
                else Some (system_prompt_input w) in
  system_prompt (state_of out) = Some (system_prompt_input w) /\
  creations (log_of out) =
    [call_start_chat (api_key_input w) (MODEL_NAME w) passed safety_settings
       {| genai.temperature := temperature w;
          genai.max_output_tokens := max_tokens w |}] /\
  exists c, chat_session (state_of out) = Some (Some c) /\
            genai.system_instruction c = passed.
Proof.
  intros Hd Hk Hr out passed. subst out.
  pose proof (chat_session_initialization_run w r k m p l cs) as E.
  cbv zeta in E. rewrite E, Hd. clear E.
  assert (Hp : (if truthy (strip (system_prompt_input w))
                then Some (system_prompt_input w) else None) = passed).
  { subst passed. rewrite truthy_strip. now destruct (blank (system_prompt_input w)). }
  unfold rebound. rewrite Hk, Hr. cbn [state_of log_of fst snd].
  unfold creation_call. rewrite Hp.
  split; [reflexivity|]. split; [reflexivity|].
  eexists. split; [reflexivity|]. cbn [new_session genai.system_instruction].
  exact Hp.
Qed.

(** The sample prompt is a space, U+00A0 and U+3000. *)
Lemma blank_system_prompt_is_no_instruction_witness :
  let w := {| env_api_key := None; api_key_input := "k";
              selected_model := Gemini15Flash; system_prompt_input := "  　";
              temperature := 70; max_tokens := 2048;
              clear_chat_history := false; user_prompt := None |} in
  let out := chat_session_initialization w Sample.service Sample.chatted in
  system_prompt (state_of out) = Some "  　" /\
  creations (log_of out) =
    [call_start_chat "k" "gemini-1.5-flash-latest" None safety_settings
       {| genai.temperature := 70; genai.max_output_tokens := 2048 |}] /\
  exists c, chat_session (state_of out) = Some (Some c) /\
            genai.system_instruction c = None.
Proof.
  exact (blank_system_prompt_is_no_instruction
           {| env_api_key := None; api_key_input := "k";
              selected_model := Gemini15Flash; system_prompt_input := "  　";
              temperature := 70; max_tokens := 2048;
              clear_chat_history := false; user_prompt := None |}
           Sample.service "k" "gemini-1.5-flash-latest" ""
           [Sample.hi; Sample.hello] (Some (Some Sample.session)) 1
           eq_refl eq_refl eq_refl).
Defined.

(** X15.  When the block rebinds with an empty key it never calls the
    client and shows no error; the missing-key warning is shown only when
    the environment supplies no key either: with [GOOGLE_API_KEY] set and
    the field emptied by the user, the session is unset without any
    notice. *)
Theorem empty_key_warning_depends_on_environment (w : widgets) (r : remote)
    (k m p : string) (l : list message) (cs : option (option genai.ChatSession)) :
  negb (present cs) || tracked_differs w k m p = true ->
  api_key_input w = "" ->
  let out := chat_session_initialization w r
               {| api_key := Some k; model_name := Some m; system_prompt := Some p;
                  messages := Some l; chat_session := cs |} in
  creations (log_of out) = [] /\
  errors (log_of out) = [] /\
  chat_session (state_of out) = Some None /\
  log_of out =
    match env_api_key w with
    | Some "" | None =>
        [st_warning "Please enter your Gemini API Key in the sidebar to start chatting."]
    | Some _ => []
    end.
Proof.
  intros Hd Hk out. subst out.
  pose proof (chat_session_initialization_run w r k m p l cs) as E.
  cbv zeta in E. rewrite E, Hd. clear E.
  unfold rebound. rewrite Hk. cbn [truthy String.eqb negb state_of log_of fst snd].
  destruct (env_api_key w) as [[|a e]|]; repeat split.
Qed.

Lemma empty_key_warning_depends_on_environment_witness :
  let w := {| env_api_key := Some "from-env"; api_key_input := "";
              selected_model := Gemini15Flash; system_prompt_input := "";
              temperature := 70; max_tokens := 2048;
              clear_chat_history := false; user_prompt := None |} in
  let out := chat_session_initialization w Sample.service Sample.chatted in
  creations (log_of out) = [] /\
  errors (log_of out) = [] /\
  chat_session (state_of out) = Some None /\
  log_of out = [].
Proof.
  exact (empty_key_warning_depends_on_environment
           {| env_api_key := Some "from-env"; api_key_input := "";
              selected_model := Gemini15Flash; system_prompt_input := "";
              temperature := 70; max_tokens := 2048;
              clear_chat_history := false; user_prompt := None |}
           Sample.service "k" "gemini-1.5-flash-latest" ""
           [Sample.hi; Sample.hello] (Some (Some Sample.session))
           eq_refl eq_refl).
Defined.

(** X16.  The model table gives distinct options distinct model names
    and distinct display names, so selecting another option is always a
    change of a tracked field: whatever the key and the system prompt are,
    the comparison of lines 107-110 finds a difference. *)
Theorem selecting_another_model_is_a_change (w : widgets) (k p : string)
    (stored_option : model_option) :
  selected_model w <> stored_option ->
  available_models (selected_model w) <> available_models stored_option /\
  display_name (selected_model w) <> display_name stored_option /\
  tracked_differs w k (available_models stored_option) p = true.
Proof.
  intros H.
  assert (Hm : available_models (selected_model w) <> available_models stored_option).
  { unfold MODEL_NAME. destruct (selected_model w), stored_option;
      try discriminate; now elim H. }
  split; [exact Hm|]. split.
  - destruct (selected_model w), stored_option; try discriminate; now elim H.
  - unfold tracked_differs, MODEL_NAME.
    destruct (String.eqb_spec (available_models stored_option)
                (available_models (selected_model w))) as [E|_].
    + now elim Hm.
    + cbn [negb]. now rewrite orb_true_r.
Qed.

Lemma selecting_another_model_is_a_change_witness :
  "gemini-1.0-pro" <> "gemini-1.5-flash-latest" /\
  "Gemini 1.0 Pro" <> "Gemini 1.5 Flash (Latest)" /\
  tracked_differs (with_model Sample.sidebar Gemini10Pro)
    "k" "gemini-1.5-flash-latest" "" = true.
Proof.
  refine (selecting_another_model_is_a_change
            (with_model Sample.sidebar Gemini10Pro) "k" "" Gemini15Flash _).
  discriminate.
Defined.

(** X17.  The first run of a browser session, when no key of
    [st.session_state] is set yet and nothing is clicked or typed in the
    chat, stores the widget values and an empty transcript; with a
    non-empty key it attempts one creation and stores the session when the
    creation succeeds, [None] when it fails; with an empty key it attempts
    none and stores [None]. *)
Theorem first_run_binds_the_widget_values (w : widgets) (r : remote) :
  clear_chat_history w = false ->
  user_prompt w = None ->
  let out := script w r empty_session_state in
  result_of out = Returned tt /\
  state_of out =
    stored (api_key_input w) (MODEL_NAME w) (system_prompt_input w) []
      (if truthy (api_key_input w) then
         match start_chat_response r with
         | genai.Started h => Some (new_session w h)
         | genai.StartRaises _ => None
         end
       else None) /\
  start_chat_calls (log_of out) = (if truthy (api_key_input w) then 1 else 0) /\
  send_message_calls (log_of out) = 0.
Proof.
  intros Hc Hu out. subst out.
  rewrite (script_defaults w r _ Hc).
  pose proof (script_changed_settings w r (api_key_input w) (MODEL_NAME w)
                (system_prompt_input w) [] None Hc eq_refl) as E.
  cbv zeta in E. change (defaults w empty_session_state) with
    {| api_key := Some (api_key_input w); model_name := Some (MODEL_NAME w);
       system_prompt := Some (system_prompt_input w); messages := Some [];
       chat_session := None |}.
  rewrite E. clear E.
  rewrite (exchanged_idle w r _ _ (or_introl Hu)).
  rewrite (handle_user_input_idle w r _ (or_introl Hu)).
  cbn [result_of state_of log_of fst snd].
  unfold rebound_messages, rebound_session, rebound.
  destruct (truthy (api_key_input w)).
  - destruct (start_chat_response r) as [h|e]; repeat split.
  - repeat split; destruct (env_api_key w) as [e|]; try destruct (truthy e); reflexivity.
Qed.

Lemma first_run_binds_the_widget_values_witness :
  let out := script Sample.sidebar Sample.refusing empty_session_state in
  result_of out = Returned tt /\
  state_of out = stored "k" "gemini-1.5-flash-latest" "" [] None /\
  start_chat_calls (log_of out) = 1 /\
  send_message_calls (log_of out) = 0.
Proof.
  exact (first_run_binds_the_widget_values Sample.sidebar Sample.refusing
           eq_refl eq_refl).
Defined.
